(** * SpeciesCard: the species card, its validation schema and its update handler

    A shallow embedding of [src/app/species/species-card.tsx].

    - JavaScript strings are sequences of UTF-16 code units ([list N]);
      [trim], [slice] and [===] are defined on them.
    - JavaScript values that can sit in a form field or in an update payload
      are the type [jsval]; JavaScript objects are finite maps from property
      names to values ([gmap string jsval]).
    - The component is a state machine over its hook state ([dialogOpen],
      [isEditing] and the values held by [useForm]); handlers run in a small
      state-and-trace monad whose trace records the calls made to the three
      collaborators (the remote store, the router and the toaster).
    - Behaviour the component relies on but does not define is an interface:
      [JsRuntime] for the URL parser behind [z.string().url()] and for
      [Number(...)] on strings, [RemoteStore] for the store's answer to an
      update.  The combinators of zod and the [handleSubmit] of
      react-hook-form are written out as far as the component uses them. *)

From Stdlib Require Import QArith.
From stdpp Require Import gmap strings list fin_maps.

Local Open Scope Z_scope.
Local Open Scope list_scope.

(* ===================================================================== *)
(** ** JavaScript strings *)
(* ===================================================================== *)

Module JsString.

(** A string is its sequence of UTF-16 code units. *)
Abbreviation jsstring := (list N).

Fixpoint code_units (s : string) : jsstring :=
  match s with
  | EmptyString => []
  | String a r => Ascii.N_of_ascii a :: code_units r
  end.

(** ECMAScript [WhiteSpace] and [LineTerminator] code points, the ones
    [String.prototype.trim] removes.  All of them lie in the BMP, so the
    test is exact on code units. *)
Definition isWhiteSpace (c : N) : bool :=
  ((c =? 0x09) || (c =? 0x0A) || (c =? 0x0B) || (c =? 0x0C) || (c =? 0x0D)
   || (c =? 0x20) || (c =? 0xA0) || (c =? 0x1680)
   || ((0x2000 <=? c) && (c <=? 0x200A))
   || (c =? 0x2028) || (c =? 0x2029) || (c =? 0x202F) || (c =? 0x205F)
   || (c =? 0x3000) || (c =? 0xFEFF))%N.

Fixpoint trimStart (s : jsstring) : jsstring :=
  match s with
  | [] => []
  | c :: r => if isWhiteSpace c then trimStart r else s
  end.

Definition trimEnd (s : jsstring) : jsstring := rev (trimStart (rev s)).

(** [s.trim()] *)
Definition trim (s : jsstring) : jsstring := trimEnd (trimStart s).

(** [s.slice(0, n)] for a non-negative [n]. *)
Definition slice0 (n : nat) (s : jsstring) : jsstring := take n s.

(** Truthiness of a string: only the empty string is falsy. *)
Definition truthy (s : jsstring) : bool :=
  match s with [] => false | _ => true end.

(** [a === b] on strings. *)
Definition eqb (a b : jsstring) : bool := bool_decide (a = b).

(** Only whitespace, or nothing at all. *)
Definition blank (s : jsstring) : bool := forallb isWhiteSpace s.

End JsString.
Import JsString.

(** String literals of the source, as code units. *)
Notation "'js' s" := (code_units s%string) (at level 10, s at level 9, only parsing).

(* ===================================================================== *)
(** ** JavaScript numbers and values *)
(* ===================================================================== *)

(** A double is NaN, an infinity, or a finite value; every finite double is a
    rational, and the checks of the schema ([Number.isInteger], [<=], [<])
    are exact comparisons of that rational. *)
Inductive number : Type :=
| NaN
| Infinity (negative : bool)
| Finite (q : Q).

Definition of_Z (z : Z) : number := Finite (inject_Z z).

(** [Number.isInteger(x)] *)
Definition isInteger (x : number) : bool :=
  match x with
  | Finite q => Qnum q mod Z.pos (Qden q) =? 0
  | _ => false
  end.

(** [x < y] *)
Definition num_ltb (x y : number) : bool :=
  match x, y with
  | NaN, _ | _, NaN => false
  | Infinity nx, Infinity ny => nx && negb ny
  | Infinity nx, Finite _ => nx
  | Finite _, Infinity ny => negb ny
  | Finite p, Finite q => Qnum p * QDen q <? Qnum q * QDen p
  end.

(** [x <= y] *)
Definition num_leb (x y : number) : bool :=
  match x, y with
  | NaN, _ | _, NaN => false
  | Infinity nx, Infinity ny => nx || negb ny
  | Infinity nx, Finite _ => nx
  | Finite _, Infinity ny => negb ny
  | Finite p, Finite q => Qnum p * QDen q <=? Qnum q * QDen p
  end.

Inductive jsval : Type :=
| JUndefined
| JNull
| JBool (b : bool)
| JNum (x : number)
| JStr (s : jsstring).

(** A plain object: property name to value.  A missing property reads as
    [undefined]. *)
Abbreviation jsobject := (gmap string jsval).

Definition prop (o : jsobject) (k : string) : jsval := default JUndefined (o !! k).

Definition nullable_str (o : option jsstring) : jsval :=
  match o with Some s => JStr s | None => JNull end.

(** What the JavaScript runtime provides and this file does not define:
    whether [new URL(s)] succeeds, and [Number(s)] on a string. *)
Class JsRuntime := {
  URL_parses : jsstring -> bool;
  Number_ : jsstring -> number
}.

(* ===================================================================== *)
(** ** The part of zod the schema uses *)
(* ===================================================================== *)

Module Zod.

Inductive issue : Type :=
| invalid_type
| too_small
| invalid_string
| invalid_enum_value.

Inductive result : Type :=
| Valid (value : jsval)
| Invalid (issues : list issue).

Definition schema : Type := jsval -> result.

(** Checks chained on [z.string()]; they run in the order written, and
    [trim] replaces the data the later checks see. *)
Inductive string_check : Type :=
| trim_
| min_length (n : nat)
| url.

Fixpoint run_string_checks {rt : JsRuntime} (cs : list string_check) (data : jsstring)
  : jsstring * list issue :=
  match cs with
  | [] => (data, [])
  | trim_ :: cs' => run_string_checks cs' (trim data)
  | min_length n :: cs' =>
      let '(out, issues) := run_string_checks cs' data in
      (out, if (length data <? n)%nat then too_small :: issues else issues)
  | url :: cs' =>
      let '(out, issues) := run_string_checks cs' data in
      (out, if URL_parses data then issues else invalid_string :: issues)
  end.

(** [z.string()] followed by its checks *)
Definition string_ {rt : JsRuntime} (cs : list string_check) : schema := fun input =>
  match input with
  | JStr s =>
      match run_string_checks cs s with
      | (out, []) => Valid (JStr out)
      | (_, issues) => Invalid issues
      end
  | _ => Invalid [invalid_type]
  end.

(** Checks chained on [z.number()]: [int()], and [min] with its
    [inclusive] flag ([positive()] is the exclusive minimum 0). *)
Inductive number_check : Type :=
| int
| minimum (value : Z) (inclusive : bool).

Definition positive : number_check := minimum 0 false.
Definition min (value : Z) : number_check := minimum value true.

Definition number_issue (c : number_check) (data : number) : list issue :=
  match c with
  | int => if isInteger data then [] else [invalid_type]
  | minimum value inclusive =>
      let tooSmall :=
        if inclusive then num_ltb data (of_Z value) else num_leb data (of_Z value) in
      if tooSmall then [too_small] else []
  end.

(** [z.number()] followed by its checks; NaN is not of type number for zod. *)
Definition number_ (cs : list number_check) : schema := fun input =>
  match input with
  | JNum NaN => Invalid [invalid_type]
  | JNum x =>
      match flat_map (fun c => number_issue c x) cs with
      | [] => Valid (JNum x)
      | issues => Invalid issues
      end
  | _ => Invalid [invalid_type]
  end.

(** [z.enum([...])] *)
Definition enum (options : list jsstring) : schema := fun input =>
  match input with
  | JStr s => if bool_decide (s ∈ options) then Valid (JStr s) else Invalid [invalid_enum_value]
  | _ => Invalid [invalid_type]
  end.

(** [inner.nullable()] *)
Definition nullable (inner : schema) : schema := fun input =>
  match input with
  | JNull => Valid JNull
  | _ => inner input
  end.

(** [inner.transform(f)]: [f] runs only on data the inner schema accepted. *)
Definition transform (inner : schema) (f : jsval -> jsval) : schema := fun input =>
  match inner input with
  | Valid value => Valid (f value)
  | Invalid issues => Invalid issues
  end.

Inductive object_result : Type :=
| ValidObject (data : jsobject)
| InvalidObject (issues : list (string * issue)).

Definition field_issues (parsed : string * result) : list (string * issue) :=
  match parsed.2 with
  | Valid _ => []
  | Invalid issues => (λ i, (parsed.1, i)) <$> issues
  end.

Definition field_value (parsed : string * result) : option (string * jsval) :=
  match parsed.2 with
  | Valid value => Some (parsed.1, value)
  | Invalid _ => None
  end.

(** [z.object(shape)]: every key of the shape is parsed from the property of
    that name, the issues of all keys are collected under the key's path,
    and the output holds the keys of the shape only. *)
Definition parse_fields (shape : list (string * schema)) (input : jsobject)
  : list (string * result) :=
  (λ entry : string * schema, (entry.1, entry.2 (prop input entry.1))) <$> shape.

Definition object (shape : list (string * schema)) (input : jsobject) : object_result :=
  let parsed := parse_fields shape input in
  match flat_map field_issues parsed with
  | [] => ValidObject (list_to_map (omap field_value parsed))
  | issues => InvalidObject issues
  end.

(** A schema that never fails without saying why. *)
Definition proper (sch : schema) : Prop := ∀ input, sch input ≠ Invalid [].

End Zod.

(* ===================================================================== *)
(** ** The species record and the schema *)
(* ===================================================================== *)

Inductive Kingdom : Type := Animalia | Plantae | Fungi | Protista | Archaea | Bacteria.

Definition kingdom_name (k : Kingdom) : jsstring :=
  match k with
  | Animalia => js "Animalia"
  | Plantae => js "Plantae"
  | Fungi => js "Fungi"
  | Protista => js "Protista"
  | Archaea => js "Archaea"
  | Bacteria => js "Bacteria"
  end.

(** [Database["public"]["Tables"]["species"]["Row"]] *)
Record Species : Type := {
  id : Z;
  scientific_name : jsstring;
  common_name : option jsstring;
  kingdom : Kingdom;
  total_population : option Z;
  image : option jsstring;
  description : option jsstring;
  author : jsstring
}.

Definition kingdoms_options : list jsstring :=
  kingdom_name <$> [Animalia; Plantae; Fungi; Protista; Archaea; Bacteria].

Definition kingdoms : Zod.schema := Zod.enum kingdoms_options.

(** [(val) => val?.trim()] *)
Definition trim_optional (val : jsval) : jsval :=
  match val with
  | JStr s => JStr (trim s)
  | _ => JUndefined
  end.

(** [(val) => (!val || val.trim() === "" ? null : val.trim())], on the
    [string | null] the inner schema lets through. *)
Definition blank_to_null (val : jsval) : jsval :=
  match val with
  | JStr s => if negb (truthy s) || eqb (trim s) [] then JNull else JStr (trim s)
  | _ => JNull
  end.

Definition scientific_name_schema {rt : JsRuntime} : Zod.schema :=
  Zod.transform (Zod.string_ [Zod.trim_; Zod.min_length 1]) trim_optional.

Definition common_name_schema {rt : JsRuntime} : Zod.schema :=
  Zod.transform (Zod.nullable (Zod.string_ [])) blank_to_null.

Definition total_population_schema : Zod.schema :=
  Zod.nullable (Zod.number_ [Zod.int; Zod.positive; Zod.min 1]).

Definition image_schema {rt : JsRuntime} : Zod.schema :=
  Zod.transform (Zod.nullable (Zod.string_ [Zod.url])) blank_to_null.

Definition description_schema {rt : JsRuntime} : Zod.schema :=
  Zod.transform (Zod.nullable (Zod.string_ [])) blank_to_null.

Definition speciesSchema_shape {rt : JsRuntime} : list (string * Zod.schema) :=
  [ ("scientific_name", scientific_name_schema);
    ("common_name", common_name_schema);
    ("kingdom", kingdoms);
    ("total_population", total_population_schema);
    ("image", image_schema);
    ("description", description_schema) ]%string.

Definition speciesSchema {rt : JsRuntime} : jsobject -> Zod.object_result :=
  Zod.object speciesSchema_shape.

(* ===================================================================== *)
(** ** Collaborators: remote store, router, toaster *)
(* ===================================================================== *)

(** [supabase.from(table).update(payload).eq(column, value)] *)
Record update_request : Type := {
  table : string;
  payload : jsobject;
  eq_column : string;
  eq_value : jsval
}.

(** The [error] of the store's answer, when there is one. *)
Record PostgrestError : Type := { message : jsstring }.

(** The remote store: its answer to an update request, [None] for
    [error: null]. *)
Class RemoteStore := { answer : update_request -> option PostgrestError }.

Module Toast.
Inductive variant_t : Type := default_ | destructive.

(** The argument of [toast(...)]; a call that gives no [variant] gets the
    default style. *)
Record t : Type := {
  title : jsstring;
  description : jsstring;
  variant : variant_t
}.
End Toast.

(** A call made to a collaborator. *)
Inductive effect : Type :=
| Update (request : update_request)
| Refresh
| Notify (toast : Toast.t).

(* ===================================================================== *)
(** ** The component's hook state and the handler monad *)
(* ===================================================================== *)

(** The state the hooks of one mounted [SpeciesCard] hold: the two [useState]
    cells and the values [useForm] keeps. *)
Record state : Type := {
  dialogOpen : bool;
  isEditing : bool;
  formValues : jsobject
}.

(** A handler reads and writes the hook state and calls collaborators; the
    calls are recorded in order. *)
Definition M (A : Type) : Type := state -> A * state * list effect.

#[global] Instance handler_ret : MRet M := λ A a st, (a, st, []).

#[global] Instance handler_bind : MBind M := λ A B k m st,
  let '(a, st1, calls1) := m st in
  let '(b, st2, calls2) := k a st1 in
  (b, st2, calls1 ++ calls2).

Definition call (e : effect) : M unit := fun st => (tt, st, [e]).

Definition setDialogOpen (open : bool) : M unit := fun st =>
  (tt, {| dialogOpen := open; isEditing := isEditing st; formValues := formValues st |}, []).

Definition setIsEditing (editing : bool) : M unit := fun st =>
  (tt, {| dialogOpen := dialogOpen st; isEditing := editing; formValues := formValues st |}, []).

(** [form.setValue(name, value)], also what a registered input does with its
    new value. *)
Definition form_setValue (name : string) (value : jsval) : M unit := fun st =>
  (tt, {| dialogOpen := dialogOpen st; isEditing := isEditing st;
          formValues := <[name := value]> (formValues st) |}, []).

Definition form_getValues : M jsobject := fun st => (formValues st, st, []).

Definition router_refresh : M unit := call Refresh.

Definition toast (t : Toast.t) : M unit := call (Notify t).

(** The awaited update: the request goes out, the store's error comes back. *)
Definition supabase_update {store : RemoteStore} (request : update_request)
  : M (option PostgrestError) :=
  call (Update request);; mret (answer request).

Definition final_state {A} (r : A * state * list effect) : state := r.1.2.
Definition calls {A} (r : A * state * list effect) : list effect := r.2.

(** The requests, the refreshes and the toasts among some calls. *)
Definition updates_of (cs : list effect) : list update_request :=
  omap (λ e, match e with Update r => Some r | _ => None end) cs.

Definition refreshes_of (cs : list effect) : nat :=
  length (omap (λ e, match e with Refresh => Some tt | _ => None end) cs).

Definition toasts_of (cs : list effect) : list Toast.t :=
  omap (λ e, match e with Notify t => Some t | _ => None end) cs.

(* ===================================================================== *)
(** ** The component *)
(* ===================================================================== *)

(** What a user can do to a mounted card. *)
Inductive event : Type :=
| ClickLearnMore
| DismissDialog
| ClickEdit
| InputChange (name : string) (value : jsstring)
| SelectKingdom (value : jsstring)
| SubmitForm.

(** What is on screen. *)
Inductive dialog_body : Type :=
| EditForm (inputs : jsobject) (select_value : jsval)
| Details (kingdom : Kingdom) (total_population : option Z).

Record dialog_view : Type := {
  dialog_title : jsstring;
  dialog_description : jsstring;
  dialog_image : option jsstring;
  body : dialog_body;
  edit_button : bool
}.

Record view : Type := {
  card_image : option jsstring;
  heading : jsstring;
  subheading : option jsstring;
  summary : jsstring;
  dialog : option dialog_view
}.

(** A [string | null] used as a condition, or on the left of [&&] and [||]. *)
Definition truthy_opt (o : option jsstring) : bool :=
  match o with Some s => truthy s | None => false end.

(** A [string | null] inside a template literal. *)
Definition interpolate (o : option jsstring) : jsstring :=
  match o with Some s => s | None => js "null" end.

(** The names registered with [form.register]. *)
Definition registered_inputs : list string :=
  ["scientific_name"; "common_name"; "total_population"; "image"; "description"]%string.

Section Component.

Context {rt : JsRuntime} {store : RemoteStore}.
Variable species : Species.
Variable sessionId : jsstring.

(** The [defaultValues] given to [useForm]. *)
Definition defaultValues : jsobject :=
  list_to_map
    [ ("scientific_name", JStr (scientific_name species));
      ("common_name", nullable_str (common_name species));
      ("kingdom", JStr (kingdom_name (kingdom species)));
      ("total_population",
        match total_population species with Some n => JNum (of_Z n) | None => JNull end);
      ("description", nullable_str (description species));
      ("image", nullable_str (image species)) ]%string.

(** The hook state of a freshly mounted card. *)
Definition mount : state :=
  {| dialogOpen := false; isEditing := false; formValues := defaultValues |}.

(** The object literal passed to [update]. *)
Definition update_payload (input : jsobject) : jsobject :=
  list_to_map
    [ ("scientific_name", prop input "scientific_name");
      ("common_name", prop input "common_name");
      ("kingdom", prop input "kingdom");
      ("total_population", prop input "total_population");
      ("description", prop input "description");
      ("image", prop input "image") ]%string.

Definition update_of (input : jsobject) : update_request :=
  {| table := "species";
     payload := update_payload input;
     eq_column := "id";
     eq_value := JNum (of_Z (id species)) |}.

Definition onSubmit (input : jsobject) : M unit :=
  error ← supabase_update (update_of input);
  match error with
  | Some error =>
      toast {| Toast.title := js "Something went wrong.";
               Toast.description := message error;
               Toast.variant := Toast.destructive |}
  | None =>
      setDialogOpen false;;
      router_refresh;;
      toast {| Toast.title := js "Species updated!";
               Toast.description := js "Changes saved successfully.";
               Toast.variant := Toast.default_ |}
  end.

(** [form.handleSubmit(onValid)]: the resolver parses the form's values with
    the schema; the callback gets the parsed data, and is not called when
    the values are invalid. *)
Definition form_handleSubmit (onValid : jsobject -> M unit) : M unit :=
  values ← form_getValues;
  match speciesSchema values with
  | Zod.ValidObject data => onValid data
  | Zod.InvalidObject _ => mret tt
  end.

(** [setValueAs] of the population input. *)
Definition setValueAs (value : jsstring) : jsval :=
  if eqb value [] then JNull else JNum (Number_ value).

(** A registered input's change: the form takes the input's text, through
    [setValueAs] where the registration gives one. *)
Definition register_onChange (name : string) (value : jsstring) : M unit :=
  form_setValue name
    (if bool_decide (name = "total_population"%string) then setValueAs value else JStr value).

(** The card's summary line. *)
Definition summary_text : jsstring :=
  match description species with
  | Some d => if truthy d then trim (slice0 150 d) ++ js "..." else []
  | None => []
  end.

(** [form.watch("kingdom") ?? "Animalia"] *)
Definition select_shown (values : jsobject) : jsval :=
  match prop values "kingdom" with
  | JNull | JUndefined => JStr (js "Animalia")
  | v => v
  end.

Definition render_dialog (st : state) : dialog_view :=
  {| dialog_title :=
       if isEditing st then js "Edit Species"
       else interpolate (common_name species) ++ js " (" ++ scientific_name species ++ js ")";
     dialog_description :=
       if isEditing st then js "Update species details below."
       else if truthy_opt (description species) then interpolate (description species)
       else js "No description available.";
     dialog_image :=
       if truthy_opt (image species) && negb (isEditing st) then image species else None;
     body :=
       if isEditing st then EditForm (formValues st) (select_shown (formValues st))
       else Details (kingdom species) (total_population species);
     edit_button := eqb (author species) sessionId && negb (isEditing st) |}.

(** [SpeciesCard({ species, sessionId })] in hook state [st]; the dialog's
    content exists only while the dialog is open. *)
Definition SpeciesCard (st : state) : view :=
  {| card_image := if truthy_opt (image species) then image species else None;
     heading := scientific_name species;
     subheading := common_name species;
     summary := summary_text;
     dialog := if dialogOpen st then Some (render_dialog st) else None |}.

Definition edit_button_shown (st : state) : bool :=
  match dialog (SpeciesCard st) with
  | Some d => edit_button d
  | None => false
  end.

Definition form_shown (st : state) : bool :=
  match dialog (SpeciesCard st) with
  | Some d => match body d with EditForm _ _ => true | Details _ _ => false end
  | None => false
  end.

(** [Number(value)] on a value of any type. *)
Definition Number_any (value : jsval) : number :=
  match value with
  | JUndefined => NaN
  | JNull => of_Z 0
  | JBool b => of_Z (if b then 1 else 0)
  | JNum x => x
  | JStr s => Number_ s
  end.

(** [setValueAs] on whatever it is given,
    [(value) => (value === "" ? null : Number(value))]: a change of the input
    gives it the input's text, which is [setValueAs] above; the registration
    of the mounted input gives it the value the form holds. *)
Definition setValueAs_any (value : jsval) : jsval :=
  match value with
  | JStr s => setValueAs s
  | _ => JNum (Number_any value)
  end.

(** What react-hook-form stores for a registered input when the input mounts:
    the value the form holds, passed through the registration's [setValueAs]
    if it has one; where the form holds nothing, what the fresh, empty input
    reads as. *)
Definition mounted_value (name : string) (stored : jsval) : jsval :=
  if bool_decide (name = "total_population"%string) then
    match stored with
    | JUndefined => setValueAs []
    | _ => setValueAs_any stored
    end
  else
    match stored with
    | JUndefined => JStr []
    | _ => stored
    end.

(** The form's values once the five registered inputs have mounted. *)
Definition register_mounted (values : jsobject) : jsobject :=
  foldr (λ name acc, <[name := mounted_value name (prop values name)]> acc)
        values registered_inputs.

(** The render in which the form appears: its inputs mount and are
    registered. *)
Definition form_mount : M unit := fun st =>
  (tt, {| dialogOpen := dialogOpen st; isEditing := isEditing st;
          formValues := register_mounted (formValues st) |}, []).

(** The handler bound to each control, with what the render it causes does to
    the form: the Edit click is [setIsEditing(true)], and the render that
    follows mounts the form. *)
Definition handler (e : event) : M unit :=
  match e with
  | ClickLearnMore => setDialogOpen true;; setIsEditing false
  | DismissDialog => setDialogOpen false
  | ClickEdit => setIsEditing true;; form_mount
  | InputChange name value => register_onChange name value
  | SelectKingdom value => form_setValue "kingdom" (JStr value)
  | SubmitForm => form_handleSubmit onSubmit
  end.

(** An event reaches its handler only when its control is on screen. *)
Definition on_screen (e : event) (st : state) : bool :=
  match e with
  | ClickLearnMore => true
  | DismissDialog => dialogOpen st
  | ClickEdit => edit_button_shown st
  | InputChange name _ => form_shown st && bool_decide (name ∈ registered_inputs)
  | SelectKingdom value => form_shown st && bool_decide (value ∈ kingdoms_options)
  | SubmitForm => form_shown st
  end.

Definition dispatch (e : event) : M unit := fun st =>
  if on_screen e st then handler e st else (tt, st, []).

(** A session: the events of a user, one after the other. *)
Fixpoint run (es : list event) : M unit :=
  match es with
  | [] => mret tt
  | e :: es' => dispatch e;; run es'
  end.

End Component.

(** Names for what [onSubmit] produces: its two toasts, and the state with the
    dialog closed. *)
Definition failure_toast (error : PostgrestError) : Toast.t :=
  {| Toast.title := js "Something went wrong.";
     Toast.description := message error;
     Toast.variant := Toast.destructive |}.

Definition success_toast : Toast.t :=
  {| Toast.title := js "Species updated!";
     Toast.description := js "Changes saved successfully.";
     Toast.variant := Toast.default_ |}.

Definition closed (st : state) : state :=
  {| dialogOpen := false; isEditing := isEditing st; formValues := formValues st |}.

(** The six editable fields. *)
Definition editable_fields : list string :=
  ["scientific_name"; "common_name"; "kingdom"; "total_population";
   "description"; "image"]%string.

(* ===================================================================== *)
(** ** What the schema hands on, and what a record must be to pass it *)
(* ===================================================================== *)

(** Text with something in it and no whitespace at either end. *)
Definition trimmed (t : jsstring) : Prop := t ≠ [] ∧ trim t = t.

(** An optional text after the schema: [null], or trimmed text. *)
Definition tidy (v : jsval) : Prop := v = JNull ∨ ∃ t, v = JStr t ∧ trimmed t.

(** A population after the schema: [null], or an integer from 1 up. *)
Definition population_ok (v : jsval) : Prop :=
  v = JNull ∨ ∃ x, v = JNum x ∧ isInteger x = true ∧ num_leb (of_Z 1) x = true.

(** An object with the six fields, each as the schema hands it on. *)
Definition storable (o : jsobject) : Prop :=
  (∃ t, o !! "scientific_name"%string = Some (JStr t) ∧ trimmed t)
  ∧ (∃ v, o !! "common_name"%string = Some v ∧ tidy v)
  ∧ (∃ k : Kingdom, o !! "kingdom"%string = Some (JStr (kingdom_name k)))
  ∧ (∃ v, o !! "total_population"%string = Some v ∧ population_ok v)
  ∧ (∃ v, o !! "image"%string = Some v ∧ tidy v)
  ∧ (∃ v, o !! "description"%string = Some v ∧ tidy v).

(** A request on the [species] table for the row of this record. *)
Definition addressed_to (sp : Species) (r : update_request) : Prop :=
  table r = "species"%string ∧ eq_column r = "id"%string
  ∧ eq_value r = JNum (of_Z (id sp)).

(** What the optional-text transform makes of a [string | null] of the record. *)
Definition normalised (o : option jsstring) : jsval :=
  match o with
  | Some s => if blank s then JNull else JStr (trim s)
  | None => JNull
  end.

(** A record whose form passes the schema as it is first shown: a scientific
    name that is not blank, a population, of at least 1, and an image the URL
    parser takes if any. *)
Definition submittable {rt : JsRuntime} (sp : Species) : Prop :=
  trim (scientific_name sp) ≠ []
  ∧ (∃ n, total_population sp = Some n ∧ 1 ≤ n)
  ∧ (∀ u, image sp = Some u → URL_parses u = true).

(** A form that holds a value, other than [undefined], for each of the six
    fields. *)
Definition defined_fields (values : jsobject) : Prop :=
  ∀ k, k ∈ editable_fields → ∃ v, values !! k = Some v ∧ v ≠ JUndefined.

(** The six field schemas say yes to their property of [values]. *)
Definition every_field_valid {rt : JsRuntime} (values : jsobject) : Prop :=
  Forall (λ entry : string * Zod.schema,
            ∃ v, entry.2 (prop values entry.1) = Zod.Valid v) speciesSchema_shape.

(** The record's own values as the schema would hand them on. *)
Definition normalised_record (sp : Species) : jsobject :=
  list_to_map
    [ ("scientific_name", JStr (trim (scientific_name sp)));
      ("common_name", normalised (common_name sp));
      ("kingdom", JStr (kingdom_name (kingdom sp)));
      ("total_population",
        match total_population sp with Some n => JNum (of_Z n) | None => JNull end);
      ("description", normalised (description sp));
      ("image", normalised (image sp)) ]%string.

(** The text inputs: the registered inputs but the population. *)
Definition text_inputs : list string :=
  ["scientific_name"; "common_name"; "image"; "description"]%string.

(** The destructive toasts among some calls. *)
Definition failures_of (cs : list effect) : nat :=
  length (omap (λ e, match e with
                     | Notify t =>
                         match Toast.variant t with
                         | Toast.destructive => Some tt
                         | Toast.default_ => None
                         end
                     | _ => None
                     end) cs).

(** The events that can write the form: typing, selecting, and the Edit
    click, whose render mounts the inputs. *)
Definition writes_form (e : event) : bool :=
  match e with
  | InputChange _ _ | SelectKingdom _ | ClickEdit => true
  | _ => false
  end.

(** The three ways a dispatched event can go: nothing is called and at most
    the flags or the form change; or a valid form is submitted and the store
    accepts; or a valid form is submitted and the store refuses. *)
Inductive outcome {rt : JsRuntime} {store : RemoteStore} (sp : Species)
    (sessionId : jsstring) (e : event) (st : state) : state → list effect → Prop :=
| quiet st' :
    outcome sp sessionId e st st' []
| accepted data :
    e = SubmitForm →
    form_shown sp sessionId st = true →
    speciesSchema (formValues st) = Zod.ValidObject data →
    answer (update_of sp data) = None →
    outcome sp sessionId e st (closed st) [Update (update_of sp data); Refresh; Notify success_toast]
| refused data error :
    e = SubmitForm →
    form_shown sp sessionId st = true →
    speciesSchema (formValues st) = Zod.ValidObject data →
    answer (update_of sp data) = Some error →
    outcome sp sessionId e st st [Update (update_of sp data); Notify (failure_toast error)].

(* ===================================================================== *)
(** ** Concrete runtimes, stores and records for the examples *)
(* ===================================================================== *)

Module Sample.

Fixpoint digits_value (acc : Z) (s : jsstring) : option Z :=
  match s with
  | [] => Some acc
  | c :: r =>
      if ((0x30 <=? c) && (c <=? 0x39))%N
      then digits_value (10 * acc + (Z.of_N c - 0x30)) r
      else None
  end.

(** A runtime good enough for the examples: URLs are the strings that start
    with [https://], and [Number] reads unsigned decimal integers. *)
Definition runtime : JsRuntime :=
  {| URL_parses := λ s, eqb (take 8 s) (js "https://");
     Number_ := λ s, match digits_value 0 s with Some z => of_Z z | None => NaN end |}.

(** A store that accepts every update. *)
Definition accepting : RemoteStore := {| answer := λ _, None |}.

(** A store that refuses every update. *)
Definition refusing : RemoteStore :=
  {| answer := λ _, Some {| message := js "duplicate key" |} |}.

Definition user : jsstring := js "user-1".

Definition stranger : jsstring := js "user-2".

Definition otter : Species :=
  {| id := 7;
     scientific_name := js "Lutra lutra";
     common_name := Some (js "Eurasian otter");
     kingdom := Animalia;
     total_population := Some 57000;
     image := None;
     description := Some (js "A semiaquatic mammal.");
     author := user |}.

(** The same record with an empty description. *)
Definition undescribed : Species :=
  {| id := 8;
     scientific_name := js "Lutra lutra";
     common_name := None;
     kingdom := Animalia;
     total_population := None;
     image := None;
     description := Some [];
     author := user |}.

(** The card of [otter], open in edit mode, with one field typed over. *)
Definition editing (name : string) (text : jsstring) : state :=
  {| dialogOpen := true; isEditing := true;
     formValues := <[name := JStr text]> (defaultValues otter) |}.

(** The card of [otter], open in view mode. *)
Definition viewing : state :=
  {| dialogOpen := true; isEditing := false; formValues := defaultValues otter |}.



End Sample.

(* ===================================================================== *)
(** ** Facts about [trim] *)
(* ===================================================================== *)

Section TrimFacts.

Lemma trimStart_blank (s : jsstring) : trimStart s = [] ↔ blank s = true.
Proof.
  induction s as [|c r IH]; simpl; [done|].
  destruct (isWhiteSpace c); simpl; [exact IH|].
  split; discriminate.
Qed.

Lemma trimStart_head (s : jsstring) c r :
  trimStart s = c :: r → isWhiteSpace c = false.
Proof.
  induction s as [|a s' IH]; simpl; [discriminate|].
  destruct (isWhiteSpace a) eqn:Ha; [exact IH|].
  intros [= <- _]. exact Ha.
Qed.

Lemma blank_app (s t : jsstring) : blank (s ++ t) = blank s && blank t.
Proof. unfold blank. apply forallb_app. Qed.

Lemma blank_rev (s : jsstring) : blank (rev s) = blank s.
Proof.
  induction s as [|c r IH]; simpl; [done|].
  rewrite blank_app, IH. simpl. rewrite andb_true_r. apply andb_comm.
Qed.

Lemma rev_nil_inv {A} (l : list A) : rev l = [] → l = [].
Proof.
  intros E. apply (f_equal (@length A)) in E.
  rewrite length_rev in E. by destruct l.
Qed.

(** [s.trim() === ""] exactly when [s] is empty or whitespace only. *)
Lemma trim_blank (s : jsstring) : trim s = [] ↔ blank s = true.
Proof.
  unfold trim, trimEnd. split.
  - intros E. apply rev_nil_inv in E. apply trimStart_blank in E.
    rewrite blank_rev in E.
    destruct (trimStart s) as [|c r] eqn:Es; [by apply trimStart_blank|].
    apply trimStart_head in Es. simpl in E. by rewrite Es in E.
  - intros B. apply trimStart_blank in B. by rewrite B.
Qed.

(** The test of the transforms, [!val || val.trim() === ""], is [blank]. *)
Lemma falsy_or_trims_empty (s : jsstring) :
  negb (truthy s) || eqb (trim s) [] = blank s.
Proof.
  destruct (blank s) eqn:B.
  - apply trim_blank in B. rewrite B. by rewrite orb_true_r.
  - destruct s as [|c r]; [done|]. simpl negb. simpl orb.
    unfold eqb. apply bool_decide_eq_false. intros E.
    apply trim_blank in E. congruence.
Qed.

Lemma blank_to_null_str (s : jsstring) :
  blank_to_null (JStr s) = if blank s then JNull else JStr (trim s).
Proof. unfold blank_to_null. by rewrite falsy_or_trims_empty. Qed.

End TrimFacts.

(* ===================================================================== *)
(** ** Facts about the zod combinators *)
(* ===================================================================== *)

Section ZodFacts.

Context {rt : JsRuntime}.

Lemma string_proper cs : Zod.proper (Zod.string_ cs).
Proof.
  intros [| | |x|s]; simpl; try discriminate.
  destruct (Zod.run_string_checks cs s) as [out [|i issues]]; discriminate.
Qed.

Lemma number_proper cs : Zod.proper (Zod.number_ cs).
Proof.
  intros [| | |x|s]; simpl; try discriminate.
  destruct x; try discriminate;
    match goal with |- context [flat_map ?f ?l] => destruct (flat_map f l) end;
    discriminate.
Qed.

Lemma enum_proper options : Zod.proper (Zod.enum options).
Proof.
  intros [| | |x|s]; simpl; try discriminate.
  case_bool_decide; discriminate.
Qed.

Lemma nullable_proper inner : Zod.proper inner → Zod.proper (Zod.nullable inner).
Proof. intros P [| | |x|s]; simpl; try apply P. discriminate. Qed.

Lemma transform_proper inner f : Zod.proper inner → Zod.proper (Zod.transform inner f).
Proof.
  intros P input. unfold Zod.transform.
  destruct (inner input) as [v|issues] eqn:E; [discriminate|].
  intros [= ->]. by apply (P input).
Qed.

Lemma speciesSchema_shape_proper : Forall (λ entry, Zod.proper entry.2) speciesSchema_shape.
Proof.
  unfold speciesSchema_shape.
  unfold scientific_name_schema, common_name_schema, kingdoms,
    total_population_schema, image_schema, description_schema.
  repeat apply Forall_cons_2; try apply Forall_nil_2; simpl;
    repeat first [ apply transform_proper | apply nullable_proper
                 | apply string_proper | apply number_proper | apply enum_proper ].
Qed.

Lemma speciesSchema_shape_keys : NoDup speciesSchema_shape.*1.
Proof. simpl. apply (bool_decide_unpack _). by vm_compute. Qed.

(** A key whose schema reports issues makes the object invalid, and its
    issues are reported under the key. *)
Lemma object_invalid shape input k sch i issues :
  (k, sch) ∈ shape →
  sch (prop input k) = Zod.Invalid (i :: issues) →
  ∃ all, Zod.object shape input = Zod.InvalidObject all ∧ (k, i) ∈ all.
Proof.
  intros Hin Hinv.
  assert ((k, i) ∈ flat_map Zod.field_issues (Zod.parse_fields shape input)) as Hi.
  { apply list_elem_of_In, in_flat_map.
    exists (k, sch (prop input k)). split.
    - apply list_elem_of_In. unfold Zod.parse_fields.
      apply list_elem_of_fmap. by exists (k, sch).
    - unfold Zod.field_issues. simpl. rewrite Hinv.
      apply list_elem_of_In. simpl. left. }
  unfold Zod.object.
  destruct (flat_map Zod.field_issues (Zod.parse_fields shape input)) as [|x l] eqn:E.
  - by apply elem_of_nil in Hi.
  - by eexists.
Qed.

(** A valid object: every key of the shape was accepted, and the output
    holds the accepted value under that key. *)
Lemma object_valid shape input data k sch :
  Forall (λ entry, Zod.proper entry.2) shape →
  NoDup shape.*1 →
  Zod.object shape input = Zod.ValidObject data →
  (k, sch) ∈ shape →
  ∃ v, sch (prop input k) = Zod.Valid v ∧ data !! k = Some v.
Proof.
  unfold Zod.object. intros Hp Hk Hv Hin.
  destruct (flat_map Zod.field_issues (Zod.parse_fields shape input)) eqn:E; [|discriminate].
  injection Hv as <-.
  induction shape as [|[k' sch'] shape IH]; [by apply elem_of_nil in Hin|].
  apply Forall_cons in Hp as [Hp1 Hp]. apply NoDup_cons in Hk as [Hk1 Hk].
  simpl in E. apply app_eq_nil in E as [E1 E2].
  unfold Zod.field_issues in E1. simpl in E1, Hp1.
  destruct (sch' (prop input k')) as [v'|issues'] eqn:Ev.
  2:{ destruct issues'; [by destruct (Hp1 (prop input k'))|discriminate]. }
  simpl. unfold Zod.field_value at 1. simpl. rewrite Ev. simpl.
  apply elem_of_cons in Hin as [[= -> ->]|Hin].
  - exists v'. split; [done|]. apply lookup_insert_eq.
  - destruct (IH Hp Hk E2 Hin) as (v & Hv1 & Hv2).
    exists v. split; [done|]. rewrite lookup_insert_ne; [done|].
    intros <-. apply Hk1. apply list_elem_of_fmap. by exists (k', sch).
Qed.

End ZodFacts.

(* ===================================================================== *)
(** ** The validation schema *)
(* ===================================================================== *)

Section SchemaProperties.

Context {rt : JsRuntime} {store : RemoteStore}.

Lemma scientific_name_blank (s : jsstring) :
  trim s = [] → scientific_name_schema (JStr s) = Zod.Invalid [Zod.too_small].
Proof.
  intros E. unfold scientific_name_schema, Zod.transform, Zod.string_.
  simpl. by rewrite E.
Qed.

Lemma optional_text_schema (s : jsstring) :
  Zod.transform (Zod.nullable (Zod.string_ [])) blank_to_null (JStr s)
  = Zod.Valid (if blank s then JNull else JStr (trim s)).
Proof.
  unfold Zod.transform, Zod.nullable, Zod.string_. cbn [Zod.run_string_checks].
  by rewrite blank_to_null_str.
Qed.

(** What [handleSubmit] does with values the schema rejects: nothing. *)
Lemma handleSubmit_invalid onValid st issues :
  speciesSchema (formValues st) = Zod.InvalidObject issues →
  form_handleSubmit onValid st = (tt, st, []).
Proof.
  intros E. unfold form_handleSubmit, form_getValues, mbind, handler_bind.
  rewrite E. done.
Qed.

(** What [handleSubmit] does with values the schema accepts: the callback
    runs on the parsed data. *)
Lemma handleSubmit_valid onValid st data :
  speciesSchema (formValues st) = Zod.ValidObject data →
  form_handleSubmit onValid st = onValid data st.
Proof.
  intros E. unfold form_handleSubmit, form_getValues, mbind, handler_bind.
  rewrite E. by destruct (onValid data st) as [[[] st'] cs].
Qed.

(** C6. Whenever the scientific name of the form trims to the empty string,
    the schema rejects the form, whatever the other fields hold, with a
    [too_small] issue on [scientific_name]; submitting then calls nothing
    (no update request goes out) and leaves the hook state as it was. *)
Theorem blank_scientific_name_blocks_submit (sp : Species) (st : state) (s : jsstring) :
  prop (formValues st) "scientific_name" = JStr s →
  trim s = [] →
  (∃ issues, speciesSchema (formValues st) = Zod.InvalidObject issues
             ∧ ("scientific_name"%string, Zod.too_small) ∈ issues)
  ∧ handler sp SubmitForm st = (tt, st, []).
Proof.
  intros Hs Ht.
  assert (∃ issues, speciesSchema (formValues st) = Zod.InvalidObject issues
                    ∧ ("scientific_name"%string, Zod.too_small) ∈ issues) as Hinv.
  { apply (object_invalid _ _ _ scientific_name_schema _ []).
    - unfold speciesSchema_shape. apply elem_of_cons. by left.
    - rewrite Hs. by apply scientific_name_blank. }
  split; [exact Hinv|].
  destruct Hinv as (issues & E & _). simpl.
  by apply handleSubmit_invalid with issues.
Qed.

(** C8. For every text typed as common name or as description: the schema
    accepts it, with [null] when the text is empty or whitespace only and
    with the trimmed text otherwise; and when the whole form is valid, that
    normalised value is what the update request carries for the field. *)
Theorem optional_text_normalized (sp : Species) (s : jsstring) :
  common_name_schema (JStr s) = Zod.Valid (if blank s then JNull else JStr (trim s))
  ∧ description_schema (JStr s) = Zod.Valid (if blank s then JNull else JStr (trim s))
  ∧ ∀ (values data : jsobject) (k : string),
      k = "common_name"%string ∨ k = "description"%string →
      prop values k = JStr s →
      speciesSchema values = Zod.ValidObject data →
      payload (update_of sp data) !! k = Some (if blank s then JNull else JStr (trim s)).
Proof.
  split; [apply optional_text_schema|]. split; [apply optional_text_schema|].
  intros values data k Hk Hs Hv.
  assert (∃ sch, (k, sch) ∈ speciesSchema_shape
                 ∧ sch (JStr s) = Zod.Valid (if blank s then JNull else JStr (trim s)))
    as (sch & Hin & Hsch).
  { destruct Hk as [-> | ->].
    - exists common_name_schema. split; [|apply optional_text_schema].
      unfold speciesSchema_shape. set_solver.
    - exists description_schema. split; [|apply optional_text_schema].
      unfold speciesSchema_shape. set_solver. }
  destruct (object_valid _ _ _ _ _ speciesSchema_shape_proper speciesSchema_shape_keys Hv Hin)
    as (v & Hv1 & Hv2).
  rewrite Hs, Hsch in Hv1. injection Hv1 as <-.
  unfold update_of, update_payload, prop. simpl.
  destruct Hk as [-> | ->]; simplify_map_eq; done.
Qed.

Lemma at_least_one (x : number) :
  num_leb (of_Z 1) x = true →
  num_leb x (of_Z 0) = false ∧ num_ltb x (of_Z 1) = false.
Proof.
  destruct x as [|[]|q]; simpl; try done.
  unfold of_Z. simpl. intros Hq. apply Z.leb_le in Hq.
  split; [apply Z.leb_gt|apply Z.ltb_ge]; lia.
Qed.

Lemma total_population_accepts (x : number) :
  isInteger x = true → num_leb (of_Z 1) x = true →
  total_population_schema (JNum x) = Zod.Valid (JNum x).
Proof.
  intros Hi Hl. destruct (at_least_one x Hl) as [Hpos Hmin].
  destruct x as [| |q]; [done|done|].
  unfold total_population_schema, Zod.nullable, Zod.number_.
  cbn [flat_map Zod.number_issue Zod.positive Zod.min app].
  by rewrite Hi, Hpos, Hmin.
Qed.

Lemma total_population_rejects (x : number) :
  isInteger x = false ∨ num_leb x (of_Z 0) = true →
  ∃ i issues, total_population_schema (JNum x) = Zod.Invalid (i :: issues).
Proof.
  intros Hx. destruct x as [|n|q]; [by eexists _, _|by eexists _, _|].
  unfold total_population_schema, Zod.nullable, Zod.number_.
  cbn [flat_map Zod.number_issue Zod.positive Zod.min app].
  destruct (isInteger (Finite q)) eqn:Hi; [|by eexists _, _].
  destruct Hx as [Hx|Hx]; [done|]. rewrite Hx. by eexists _, _.
Qed.

Lemma isInteger_of_Z (n : Z) : isInteger (of_Z n) = true.
Proof. unfold isInteger, of_Z. simpl. rewrite Z.mod_1_r. done. Qed.

Lemma num_leb_of_Z (m n : Z) : num_leb (of_Z m) (of_Z n) = (m <=? n).
Proof. unfold num_leb, of_Z. simpl. by rewrite !Z.mul_1_r. Qed.

Lemma image_not_url (s : jsstring) :
  URL_parses s = false → image_schema (JStr s) = Zod.Invalid [Zod.invalid_string].
Proof.
  intros E. unfold image_schema, Zod.transform, Zod.nullable, Zod.string_.
  cbn [Zod.run_string_checks]. by rewrite E.
Qed.

Lemma image_url (s : jsstring) :
  URL_parses s = true →
  image_schema (JStr s) = Zod.Valid (if blank s then JNull else JStr (trim s)).
Proof.
  intros E. unfold image_schema, Zod.transform, Zod.nullable, Zod.string_.
  cbn [Zod.run_string_checks]. rewrite E. by rewrite blank_to_null_str.
Qed.

Lemma image_null : image_schema JNull = Zod.Valid JNull.
Proof. done. Qed.

(** C4, at the input where the code departs from it.  With a URL parser
    that refuses the empty string, as [new URL("")] does, an image field
    left empty is not turned into [null]: the [url] check runs before the
    transform, the schema rejects the form with an [invalid_string] issue
    on [image], and submitting calls nothing. *)
Theorem empty_image_rejected (sp : Species) (st : state) :
  URL_parses [] = false →
  prop (formValues st) "image" = JStr [] →
  image_schema (JStr []) = Zod.Invalid [Zod.invalid_string]
  ∧ (∃ issues, speciesSchema (formValues st) = Zod.InvalidObject issues
               ∧ ("image"%string, Zod.invalid_string) ∈ issues)
  ∧ handler sp SubmitForm st = (tt, st, []).
Proof.
  intros Hurl Hs.
  assert (∃ issues, speciesSchema (formValues st) = Zod.InvalidObject issues
                    ∧ ("image"%string, Zod.invalid_string) ∈ issues) as Hinv.
  { apply (object_invalid _ _ _ image_schema _ []).
    - unfold speciesSchema_shape. set_solver.
    - rewrite Hs. by apply image_not_url. }
  split; [by apply image_not_url|]. split; [exact Hinv|].
  destruct Hinv as (issues & E & _). simpl.
  by apply handleSubmit_invalid with issues.
Qed.

End SchemaProperties.

(* ===================================================================== *)
(** ** The update handler *)
(* ===================================================================== *)

Section HandlerProperties.

Context {rt : JsRuntime} {store : RemoteStore}.

(** The two runs of [onSubmit], by the store's answer. *)
Lemma onSubmit_run (sp : Species) (input : jsobject) (st : state) :
  onSubmit sp input st =
  match answer (update_of sp input) with
  | Some error =>
      (tt, st, [Update (update_of sp input); Notify (failure_toast error)])
  | None =>
      (tt, closed st, [Update (update_of sp input); Refresh; Notify success_toast])
  end.
Proof.
  unfold onSubmit, supabase_update, mbind, handler_bind, mret, handler_ret.
  unfold call. destruct (answer (update_of sp input)) as [error|]; reflexivity.
Qed.

(** C1. When the store answers an update without an error, [onSubmit]
    leaves the dialog closed, refreshes the view exactly once and shows one
    toast, the one titled "Species updated!".  When the store answers with
    an error, none of this happens: the hook state is what it was, there is
    no refresh and no toast of that title. *)
Theorem update_accepted (sp : Species) (input : jsobject) (st : state) :
  (answer (update_of sp input) = None →
     dialogOpen (final_state (onSubmit sp input st)) = false
     ∧ refreshes_of (calls (onSubmit sp input st)) = 1%nat
     ∧ toasts_of (calls (onSubmit sp input st)) = [success_toast]
     ∧ Toast.title success_toast = js "Species updated!")
  ∧ (∀ error, answer (update_of sp input) = Some error →
     final_state (onSubmit sp input st) = st
     ∧ refreshes_of (calls (onSubmit sp input st)) = 0%nat
     ∧ Forall (λ t, Toast.title t ≠ js "Species updated!")
         (toasts_of (calls (onSubmit sp input st)))).
Proof.
  rewrite onSubmit_run. split.
  - intros ->. done.
  - intros error ->. repeat split. apply Forall_cons_2; [|apply Forall_nil_2].
    simpl. discriminate.
Qed.

(** C2. When the store answers an update with an error, [onSubmit] leaves
    the hook state untouched, so an open dialog stays open and stays in
    edit mode; the view is not refreshed; exactly one toast is shown, in
    the destructive style, with the error's message as its description; and
    the update request went out once, with no second attempt. *)
Theorem update_refused (sp : Species) (input : jsobject) (st : state)
    (error : PostgrestError) :
  answer (update_of sp input) = Some error →
  final_state (onSubmit sp input st) = st
  ∧ dialogOpen (final_state (onSubmit sp input st)) = dialogOpen st
  ∧ isEditing (final_state (onSubmit sp input st)) = isEditing st
  ∧ refreshes_of (calls (onSubmit sp input st)) = 0%nat
  ∧ (∃ t, toasts_of (calls (onSubmit sp input st)) = [t]
          ∧ Toast.variant t = Toast.destructive
          ∧ Toast.description t = message error)
  ∧ updates_of (calls (onSubmit sp input st)) = [update_of sp input].
Proof.
  intros E. rewrite onSubmit_run, E. repeat split.
  exists (failure_toast error). done.
Qed.

(** C5. Every run of [onSubmit] sends exactly one update request, to the
    [species] table, filtered by equality of [id] with the record's
    identifier.  Its payload has the six editable fields and nothing else,
    each with the value the input holds for it, whatever the record held;
    [id] and [author] are not in it.  A submit of the form sends that one
    request when the schema accepts the form's values, and none otherwise. *)
Theorem one_update_of_six_fields (sp : Species) (input : jsobject) (st : state) :
  updates_of (calls (onSubmit sp input st)) = [update_of sp input]
  ∧ table (update_of sp input) = "species"%string
  ∧ eq_column (update_of sp input) = "id"%string
  ∧ eq_value (update_of sp input) = JNum (of_Z (id sp))
  ∧ dom (payload (update_of sp input)) = list_to_set editable_fields
  ∧ Forall (λ k, payload (update_of sp input) !! k = Some (prop input k)) editable_fields
  ∧ payload (update_of sp input) !! "id"%string = None
  ∧ payload (update_of sp input) !! "author"%string = None
  ∧ updates_of (calls (handler sp SubmitForm st)) =
      match speciesSchema (formValues st) with
      | Zod.ValidObject data => [update_of sp data]
      | Zod.InvalidObject _ => []
      end.
Proof.
  split.
  { rewrite onSubmit_run. by destruct (answer (update_of sp input)). }
  do 3 (split; [reflexivity|]).
  split.
  { unfold update_of. cbn [payload]. unfold update_payload.
    rewrite dom_list_to_map_L. reflexivity. }
  split.
  { unfold update_of, update_payload, editable_fields. simpl payload.
    repeat apply Forall_cons_2; try apply Forall_nil_2; by simplify_map_eq. }
  split; [done|]. split; [done|].
  simpl handler.
  destruct (speciesSchema (formValues st)) as [data|issues] eqn:E.
  - rewrite (handleSubmit_valid _ _ _ E), onSubmit_run.
    by destruct (answer (update_of sp data)).
  - by rewrite (handleSubmit_invalid _ _ _ E).
Qed.

End HandlerProperties.

(* ===================================================================== *)
(** ** The view and the dialog's life cycle *)
(* ===================================================================== *)

Section ViewProperties.

Context {rt : JsRuntime} {store : RemoteStore}.

(** C9. The Edit control is on screen exactly when the dialog is open, the
    card is not in edit mode, and the record's author is the session's
    identifier.  So in the open dialog's view mode it is there if and only
    if author and session agree, and with a different author it is never
    there. *)
Theorem edit_control_for_author (sp : Species) (sessionId : jsstring) (st : state) :
  (edit_button_shown sp sessionId st = true
     ↔ dialogOpen st = true ∧ isEditing st = false ∧ author sp = sessionId)
  ∧ (dialogOpen st = true → isEditing st = false →
       (edit_button_shown sp sessionId st = true ↔ author sp = sessionId))
  ∧ (author sp ≠ sessionId → edit_button_shown sp sessionId st = false).
Proof.
  assert (edit_button_shown sp sessionId st = true
     ↔ dialogOpen st = true ∧ isEditing st = false ∧ author sp = sessionId) as Hiff.
  { unfold edit_button_shown, SpeciesCard, render_dialog, eqb. simpl.
    destruct (dialogOpen st), (isEditing st); simpl;
      rewrite ?andb_true_r, ?andb_false_r, ?bool_decide_eq_true;
      intuition congruence. }
  split; [exact Hiff|]. split.
  - intros Ho He. rewrite Hiff. tauto.
  - intros Hne. apply not_true_is_false. rewrite Hiff. tauto.
Qed.

(** C10, as the code has it.  With a description that is not empty, the
    summary is the first 150 code units, trimmed, followed by "..." (so a
    description of at most 150 code units is shown whole, trimmed, and
    still gets the dots); with no description, or an empty one, the summary
    is empty. *)
Theorem summary_of_description (sp : Species) (sessionId : jsstring) (st : state) :
  (∀ d, description sp = Some d → d ≠ [] →
     summary (SpeciesCard sp sessionId st) = trim (slice0 150 d) ++ js "..."
     ∧ ((length d ≤ 150)%nat →
        summary (SpeciesCard sp sessionId st) = trim d ++ js "..."))
  ∧ (description sp = None ∨ description sp = Some [] →
     summary (SpeciesCard sp sessionId st) = []).
Proof.
  unfold SpeciesCard. cbn [summary]. unfold summary_text. split.
  - intros d -> Hd. destruct d as [|c r]; [done|]. cbn [truthy].
    split; [done|]. intros Hlen. unfold slice0. by rewrite take_ge.
  - by intros [-> | ->].
Qed.

Lemma final_run_cons sp sessionId e es st :
  final_state (run sp sessionId (e :: es) st)
  = final_state (run sp sessionId es (final_state (dispatch sp sessionId e st))).
Proof.
  simpl. unfold mbind, handler_bind, final_state.
  destruct (dispatch sp sessionId e st) as [[[] st1] c1]. simpl.
  by destruct (run sp sessionId es st1) as [[[] st2] c2].
Qed.

Lemma final_run_app sp sessionId es es' st :
  final_state (run sp sessionId (es ++ es') st)
  = final_state (run sp sessionId es' (final_state (run sp sessionId es st))).
Proof.
  revert st. induction es as [|e es IH]; intros st; [done|].
  simpl app. by rewrite !final_run_cons, IH.
Qed.

End ViewProperties.

(* ===================================================================== *)
(** ** The properties at concrete inputs *)
(* ===================================================================== *)

(** A scientific name of three spaces blocks the submit. *)
Lemma blank_scientific_name_blocks_submit_witness :
  trim (js "   ") = []
  ∧ handler (rt := Sample.runtime) (store := Sample.accepting) Sample.otter SubmitForm
      (Sample.editing "scientific_name" (js "   "))
    = (tt, Sample.editing "scientific_name" (js "   "), []).
Proof.
  split; [reflexivity|].
  apply (blank_scientific_name_blocks_submit (rt := Sample.runtime)
           (store := Sample.accepting)
           Sample.otter (Sample.editing "scientific_name" (js "   ")) (js "   "));
    vm_compute; reflexivity.
Defined.

(** A common name of two spaces reaches the store as [null]. *)
Lemma optional_text_normalized_witness :
  ∃ data,
    speciesSchema (rt := Sample.runtime)
      (formValues (Sample.editing "common_name" (js "  "))) = Zod.ValidObject data
    ∧ payload (update_of Sample.otter data) !! "common_name"%string = Some JNull.
Proof.
  eexists. split; [vm_compute; reflexivity|].
  apply (proj2 (proj2 (optional_text_normalized (rt := Sample.runtime)
                         Sample.otter (js "  ")))
           (formValues (Sample.editing "common_name" (js "  "))) _ "common_name"%string).
  - left. reflexivity.
  - vm_compute. reflexivity.
  - vm_compute. reflexivity.
Defined.

(** The sample runtime refuses the empty string as a URL, and a cleared image
    field blocks the submit. *)
Lemma empty_image_rejected_witness :
  URL_parses (JsRuntime := Sample.runtime) [] = false
  ∧ image_schema (rt := Sample.runtime) (JStr []) = Zod.Invalid [Zod.invalid_string]
  ∧ handler (rt := Sample.runtime) (store := Sample.accepting) Sample.otter SubmitForm
      (Sample.editing "image" [])
    = (tt, Sample.editing "image" [], []).
Proof.
  split; [reflexivity|].
  pose proof (empty_image_rejected (rt := Sample.runtime) (store := Sample.accepting)
                Sample.otter (Sample.editing "image" []) eq_refl) as Hw.
  split; apply Hw; vm_compute; reflexivity.
Defined.

(** An accepted update closes the dialog; a refused one does not. *)
Lemma update_accepted_witness :
  dialogOpen (final_state (onSubmit (store := Sample.accepting) Sample.otter
                             (defaultValues Sample.otter) Sample.viewing)) = false
  ∧ final_state (onSubmit (store := Sample.refusing) Sample.otter
                   (defaultValues Sample.otter) Sample.viewing) = Sample.viewing.
Proof.
  split.
  - apply (update_accepted (store := Sample.accepting)
             Sample.otter (defaultValues Sample.otter) Sample.viewing).
    reflexivity.
  - apply (proj2 (update_accepted (store := Sample.refusing)
             Sample.otter (defaultValues Sample.otter) Sample.viewing)
             {| message := js "duplicate key" |}).
    reflexivity.
Defined.

(** A refused update, "duplicate key", leaves the dialog open in edit mode and
    shows the message. *)
Lemma update_refused_witness :
  final_state (onSubmit (store := Sample.refusing) Sample.otter
                 (defaultValues Sample.otter) (Sample.editing "image" []))
  = Sample.editing "image" []
  ∧ toasts_of (calls (onSubmit (store := Sample.refusing) Sample.otter
                        (defaultValues Sample.otter) (Sample.editing "image" [])))
    = [failure_toast {| message := js "duplicate key" |}].
Proof.
  pose proof (update_refused (store := Sample.refusing) Sample.otter
                (defaultValues Sample.otter) (Sample.editing "image" [])
                {| message := js "duplicate key" |} eq_refl) as Hw.
  split; [apply Hw|]. reflexivity.
Defined.

(** The author sees the Edit control in view mode; another user does not. *)
Lemma edit_control_for_author_witness :
  edit_button_shown Sample.otter Sample.user Sample.viewing = true
  ∧ edit_button_shown Sample.otter (js "user-2") Sample.viewing = false.
Proof.
  split.
  - apply (proj2 (proj1 (edit_control_for_author Sample.otter Sample.user Sample.viewing))).
    repeat split.
  - apply (proj2 (proj2 (edit_control_for_author Sample.otter (js "user-2") Sample.viewing))).
    vm_compute. discriminate.
Defined.

(** A short description is shown whole, with the dots. *)
Lemma summary_of_description_witness :
  summary (SpeciesCard Sample.otter Sample.user Sample.viewing)
  = js "A semiaquatic mammal....".
Proof.
  destruct (proj1 (summary_of_description Sample.otter Sample.user Sample.viewing)
              (js "A semiaquatic mammal.") eq_refl) as [_ Hshort]; [discriminate|].
  apply Hshort. simpl. lia.
Defined.

(** C10 as written fails for a description that is the empty string: the
    summary is empty, not "...". *)
Lemma empty_description_has_no_dots :
  description Sample.undescribed = Some []
  ∧ summary (SpeciesCard Sample.undescribed Sample.user Sample.viewing) = []
  ∧ summary (SpeciesCard Sample.undescribed Sample.user Sample.viewing)
    ≠ trim (slice0 150 []) ++ js "...".
Proof. repeat split. discriminate. Qed.



(* ===================================================================== *)
(** ** More about [trim] *)
(* ===================================================================== *)

Section TrimShape.

Lemma trimStart_split (s : jsstring) :
  ∃ w, s = w ++ trimStart s ∧ blank w = true.
Proof.
  induction s as [|c r (w & E & B)]; [by exists []|].
  simpl. destruct (isWhiteSpace c) eqn:Hc.
  - exists (c :: w). split; [simpl; congruence|]. simpl. by rewrite Hc.
  - by exists [].
Qed.

Lemma trimStart_idem (s : jsstring) : trimStart (trimStart s) = trimStart s.
Proof.
  destruct (trimStart s) as [|c r] eqn:E; [done|].
  apply trimStart_head in E. simpl. by rewrite E.
Qed.

Lemma length_trimStart (s : jsstring) : (length (trimStart s) ≤ length s)%nat.
Proof.
  destruct (trimStart_split s) as (w & E & _).
  rewrite E at 2. rewrite length_app. lia.
Qed.

Lemma length_trim (s : jsstring) : (length (trim s) ≤ length s)%nat.
Proof.
  unfold trim, trimEnd. rewrite length_rev.
  etrans; [apply length_trimStart|]. rewrite length_rev. apply length_trimStart.
Qed.

(** Trimming twice is trimming once. *)
Lemma trim_idem (s : jsstring) : trim (trim s) = trim s.
Proof.
  unfold trim, trimEnd.
  assert (trimStart (rev (trimStart (rev (trimStart s))))
          = rev (trimStart (rev (trimStart s)))) as Hfront.
  { destruct (trimStart_split (rev (trimStart s))) as (w & E & _).
    remember (trimStart (rev (trimStart s))) as b eqn:Eb. clear Eb.
    apply (f_equal (@rev N)) in E.
    rewrite rev_involutive, rev_app_distr in E.
    destruct (rev b) as [|c r]; [done|].
    simpl in E. apply trimStart_head in E. simpl. by rewrite E. }
  rewrite Hfront, rev_involutive. by rewrite trimStart_idem.
Qed.

Lemma trim_trimmed (s : jsstring) : trim s ≠ [] → trimmed (trim s).
Proof. intros Hne. split; [done|apply trim_idem]. Qed.

Lemma blank_false_trim (s : jsstring) : blank s = false → trim s ≠ [].
Proof. intros B E. apply trim_blank in E. congruence. Qed.

Lemma normalised_tidy (o : option jsstring) : tidy (normalised o).
Proof.
  destruct o as [s|]; [|by left]. simpl.
  destruct (blank s) eqn:B; [by left|].
  right. exists (trim s). split; [done|]. by apply trim_trimmed, blank_false_trim.
Qed.

End TrimShape.

(* ===================================================================== *)
(** ** Each field of the schema, exactly *)
(* ===================================================================== *)

Section FieldsExactly.

Context {rt : JsRuntime}.

Lemma scientific_name_kept (s : jsstring) :
  trim s ≠ [] → scientific_name_schema (JStr s) = Zod.Valid (JStr (trim s)).
Proof.
  intros Hne. unfold scientific_name_schema, Zod.transform, Zod.string_.
  cbn [Zod.run_string_checks].
  destruct (trim s) as [|c r] eqn:E; [done|].
  simpl. rewrite <- E. by rewrite trim_idem.
Qed.

Lemma scientific_name_cases (input v : jsval) :
  scientific_name_schema input = Zod.Valid v
  ↔ ∃ s, input = JStr s ∧ v = JStr (trim s) ∧ trimmed (trim s).
Proof.
  split.
  - destruct input as [| | |x|s]; try discriminate.
    destruct (decide (trim s = [])) as [E|Hne].
    + by rewrite (scientific_name_blank s E).
    + rewrite (scientific_name_kept s Hne). intros [= <-].
      exists s. split; [done|]. split; [done|]. by apply trim_trimmed.
  - intros (s & -> & -> & Hne & _). by apply scientific_name_kept.
Qed.

Lemma kingdoms_cases (input v : jsval) :
  kingdoms input = Zod.Valid v ↔ ∃ k : Kingdom, input = JStr (kingdom_name k) ∧ v = input.
Proof.
  unfold kingdoms, Zod.enum, kingdoms_options. split.
  - destruct input as [| | |x|s]; try discriminate.
    case_bool_decide as Hin; [|discriminate]. intros [= <-].
    apply list_elem_of_fmap in Hin as (k & -> & _). by exists k.
  - intros (k & -> & ->). rewrite bool_decide_true; [done|].
    apply list_elem_of_fmap. exists k. split; [done|]. destruct k; set_solver.
Qed.

Lemma optional_text_exact (input v : jsval) :
  Zod.transform (Zod.nullable (Zod.string_ [])) blank_to_null input = Zod.Valid v
  ↔ (input = JNull ∧ v = JNull) ∨ ∃ s, input = JStr s ∧ v = normalised (Some s).
Proof.
  split.
  - destruct input as [| | |x|s]; try discriminate.
    + intros [= <-]. by left.
    + rewrite optional_text_schema. intros [= <-]. right. by exists s.
  - intros [[-> ->] | (s & -> & ->)]; [done|]. apply optional_text_schema.
Qed.

Lemma image_cases (input v : jsval) :
  image_schema input = Zod.Valid v
  ↔ (input = JNull ∧ v = JNull)
    ∨ ∃ s, input = JStr s ∧ URL_parses s = true ∧ v = normalised (Some s).
Proof.
  split.
  - destruct input as [| | |x|s]; try discriminate.
    + intros [= <-]. by left.
    + destruct (URL_parses s) eqn:U.
      * rewrite (image_url s U). intros [= <-]. right. by exists s.
      * by rewrite (image_not_url s U).
  - intros [[-> ->] | (s & -> & U & ->)]; [done|]. by apply image_url.
Qed.

Lemma total_population_exact (input v : jsval) :
  total_population_schema input = Zod.Valid v
  ↔ (input = JNull ∧ v = JNull)
    ∨ ∃ x, input = JNum x ∧ v = JNum x
           ∧ isInteger x = true ∧ num_leb (of_Z 1) x = true.
Proof.
  split.
  - destruct input as [| | |x|s]; try discriminate.
    + intros [= <-]. by left.
    + intros Hv. right. exists x.
      destruct (isInteger x) eqn:Hi.
      2:{ destruct (total_population_rejects x (or_introl Hi)) as (i & l & E).
          congruence. }
      destruct (num_leb (of_Z 1) x) eqn:Hl.
      * rewrite (total_population_accepts x Hi Hl) in Hv. by injection Hv as <-.
      * exfalso. destruct x as [| |q]; [done|done|].
        revert Hv. unfold total_population_schema, Zod.nullable, Zod.number_.
        cbn [flat_map Zod.number_issue Zod.positive Zod.min app]. rewrite Hi.
        assert (num_ltb (Finite q) (of_Z 1) = true) as ->.
        { revert Hl. unfold num_leb, num_ltb, of_Z. simpl.
          intros Hl. apply Z.leb_gt in Hl. apply Z.ltb_lt. lia. }
        by destruct (num_leb (Finite q) (of_Z 0)).
  - intros [[-> ->] | (x & -> & -> & Hi & Hl)]; [done|].
    by apply total_population_accepts.
Qed.

Lemma typed_population_cases (text : jsstring) (v : jsval) :
  total_population_schema (setValueAs text) = Zod.Valid v
  ↔ (text = [] ∧ v = JNull)
    ∨ (text ≠ [] ∧ v = JNum (Number_ text)
       ∧ isInteger (Number_ text) = true ∧ num_leb (of_Z 1) (Number_ text) = true).
Proof.
  unfold setValueAs, eqb. rewrite total_population_exact.
  case_bool_decide as Ht.
  - subst text. split.
    + intros [[_ ->] | (x & [=] & _)]. by left.
    + intros [[_ ->] | [Hne _]]; [by left|done].
  - split.
    + intros [[[=] _] | (x & [= <-] & -> & Hi & Hl)]. by right.
    + intros [[-> _] | (_ & -> & Hi & Hl)]; [done|]. right. by eexists.
Qed.

End FieldsExactly.

(* ===================================================================== *)
(** ** The schema as a whole *)
(* ===================================================================== *)

Section SchemaAsAWhole.

Context {rt : JsRuntime}.

Lemma object_valid_intro shape input :
  Forall (λ entry : string * Zod.schema,
            ∃ v, entry.2 (prop input entry.1) = Zod.Valid v) shape →
  ∃ data, Zod.object shape input = Zod.ValidObject data.
Proof.
  intros Hall. unfold Zod.object.
  assert (flat_map Zod.field_issues (Zod.parse_fields shape input) = []) as ->.
  { induction Hall as [|[k sch] shape (v & Hv) _ IH]; [done|].
    simpl in *. unfold Zod.field_issues at 1. simpl. by rewrite Hv. }
  by eexists.
Qed.

Lemma object_valid_dom shape input data :
  Forall (λ entry, Zod.proper entry.2) shape →
  Zod.object shape input = Zod.ValidObject data →
  dom data = list_to_set shape.*1.
Proof.
  unfold Zod.object. intros Hp Hv.
  destruct (flat_map Zod.field_issues (Zod.parse_fields shape input)) eqn:E; [|discriminate].
  injection Hv as <-. rewrite dom_list_to_map_L. f_equal.
  induction shape as [|[k sch] shape IH]; [done|].
  apply Forall_cons in Hp as [Hp1 Hp].
  simpl in E. apply app_eq_nil in E as [E1 E2].
  unfold Zod.field_issues in E1. simpl in E1, Hp1.
  simpl. unfold Zod.field_value at 1. simpl.
  destruct (sch (prop input k)) as [v|issues] eqn:Ev.
  - simpl. f_equal. by apply IH.
  - destruct issues; [by destruct (Hp1 (prop input k))|discriminate].
Qed.

Lemma shape_entries (entry : string * Zod.schema) :
  entry ∈ speciesSchema_shape ↔
    entry = ("scientific_name"%string, scientific_name_schema)
    ∨ entry = ("common_name"%string, common_name_schema)
    ∨ entry = ("kingdom"%string, kingdoms)
    ∨ entry = ("total_population"%string, total_population_schema)
    ∨ entry = ("image"%string, image_schema)
    ∨ entry = ("description"%string, description_schema).
Proof. unfold speciesSchema_shape. rewrite !elem_of_cons, elem_of_nil. tauto. Qed.

Lemma valid_iff_fields (values : jsobject) :
  (∃ data, speciesSchema values = Zod.ValidObject data) ↔ every_field_valid values.
Proof.
  unfold every_field_valid. split.
  - intros (data & Hv). apply Forall_forall. intros [k sch] Hin.
    destruct (object_valid _ _ _ _ _ speciesSchema_shape_proper
                speciesSchema_shape_keys Hv Hin) as (v & Hval & _).
    by exists v.
  - apply object_valid_intro.
Qed.

Lemma undefined_refused (entry : string * Zod.schema) :
  entry ∈ speciesSchema_shape → entry.2 JUndefined = Zod.Invalid [Zod.invalid_type].
Proof.
  rewrite shape_entries. intros [->|[->|[->|[->|[->| ->]]]]]; reflexivity.
Qed.

Lemma missing_field (values : jsobject) (k : string) :
  k ∈ editable_fields →
  values !! k = None →
  ∃ issues, speciesSchema values = Zod.InvalidObject issues
            ∧ (k, Zod.invalid_type) ∈ issues.
Proof.
  intros Hk Hmiss.
  assert (∃ sch, (k, sch) ∈ speciesSchema_shape) as (sch & Hin).
  { unfold editable_fields in Hk. rewrite !elem_of_cons, elem_of_nil in Hk.
    destruct Hk as [->|[->|[->|[->|[->|[->|[]]]]]]]; eexists; apply shape_entries;
      eauto 10. }
  apply (object_invalid _ _ _ sch _ []); [done|].
  unfold prop. rewrite Hmiss. simpl. apply (undefined_refused _ Hin).
Qed.

Lemma update_payload_lookup (data : jsobject) (k : string) (v : jsval) :
  k ∈ editable_fields → data !! k = Some v → update_payload data !! k = Some v.
Proof.
  unfold editable_fields. rewrite !elem_of_cons, elem_of_nil.
  intros Hk Hv. unfold update_payload, prop.
  destruct Hk as [->|[->|[->|[->|[->|[->|[]]]]]]]; simplify_map_eq; done.
Qed.

Lemma field_of_valid (values data : jsobject) (k : string) (sch : Zod.schema) :
  speciesSchema values = Zod.ValidObject data →
  (k, sch) ∈ speciesSchema_shape →
  ∃ v, sch (prop values k) = Zod.Valid v ∧ data !! k = Some v.
Proof.
  intros Hv Hin.
  exact (object_valid _ _ _ _ _ speciesSchema_shape_proper speciesSchema_shape_keys Hv Hin).
Qed.

Lemma valid_data_storable (values data : jsobject) :
  speciesSchema values = Zod.ValidObject data →
  storable data ∧ dom data = list_to_set editable_fields.
Proof.
  intros Hv. split.
  - unfold storable. repeat split.
    + destruct (field_of_valid _ _ "scientific_name" scientific_name_schema Hv)
        as (v & Hs & Hd); [apply shape_entries; tauto|].
      apply scientific_name_cases in Hs as (s & _ & -> & Ht). eauto.
    + destruct (field_of_valid _ _ "common_name" common_name_schema Hv)
        as (v & Hs & Hd); [apply shape_entries; tauto|].
      exists v. split; [done|].
      apply optional_text_exact in Hs as [[_ ->] | (s & _ & ->)];
        [by left|apply normalised_tidy].
    + destruct (field_of_valid _ _ "kingdom" kingdoms Hv)
        as (v & Hs & Hd); [apply shape_entries; tauto|].
      apply kingdoms_cases in Hs as (k & Hk & ->). exists k. by rewrite <- Hk.
    + destruct (field_of_valid _ _ "total_population" total_population_schema Hv)
        as (v & Hs & Hd); [apply shape_entries; tauto|].
      exists v. split; [done|].
      apply total_population_exact in Hs as [[_ ->] | (x & _ & -> & Hi & Hl)];
        [by left|right; eauto].
    + destruct (field_of_valid _ _ "image" image_schema Hv)
        as (v & Hs & Hd); [apply shape_entries; tauto|].
      exists v. split; [done|].
      apply image_cases in Hs as [[_ ->] | (s & _ & _ & ->)];
        [by left|apply normalised_tidy].
    + destruct (field_of_valid _ _ "description" description_schema Hv)
        as (v & Hs & Hd); [apply shape_entries; tauto|].
      exists v. split; [done|].
      apply optional_text_exact in Hs as [[_ ->] | (s & _ & ->)];
        [by left|apply normalised_tidy].
  - rewrite (object_valid_dom _ _ _ speciesSchema_shape_proper Hv).
    apply set_eq. intros x. unfold editable_fields. simpl. set_solver.
Qed.

End SchemaAsAWhole.

(* ===================================================================== *)
(** ** Sessions, one event at a time *)
(* ===================================================================== *)

Section Sessions.

Context {rt : JsRuntime} {store : RemoteStore}.
Variable sp : Species.
Variable sessionId : jsstring.

Lemma form_shown_flags (st : state) :
  form_shown sp sessionId st = dialogOpen st && isEditing st.
Proof.
  unfold form_shown, SpeciesCard, render_dialog. simpl.
  by destruct (dialogOpen st), (isEditing st).
Qed.

Lemma edit_button_shown_flags (st : state) :
  edit_button_shown sp sessionId st
  = dialogOpen st && (eqb (author sp) sessionId && negb (isEditing st)).
Proof.
  unfold edit_button_shown, SpeciesCard, render_dialog. simpl.
  by destruct (dialogOpen st).
Qed.

Lemma calls_run_cons e es st :
  calls (run sp sessionId (e :: es) st)
  = calls (dispatch sp sessionId e st)
    ++ calls (run sp sessionId es (final_state (dispatch sp sessionId e st))).
Proof.
  simpl. unfold mbind, handler_bind, final_state, calls.
  destruct (dispatch sp sessionId e st) as [[[] st1] c1]. simpl.
  by destruct (run sp sessionId es st1) as [[[] st2] c2].
Qed.

Lemma dispatch_outcome e st :
  outcome sp sessionId e st (final_state (dispatch sp sessionId e st))
                            (calls (dispatch sp sessionId e st)).
Proof.
  unfold dispatch.
  destruct (on_screen sp sessionId e st) eqn:Hon; [|apply quiet].
  destruct e; try apply quiet.
  simpl in Hon. simpl handler.
  destruct (speciesSchema (formValues st)) as [data|issues] eqn:E.
  - rewrite (handleSubmit_valid _ _ _ E), onSubmit_run.
    destruct (answer (update_of sp data)) as [error|] eqn:Ea.
    + by eapply refused.
    + by eapply accepted.
  - rewrite (handleSubmit_invalid _ _ _ E). apply quiet.
Qed.

(** What one event does to the two flags and to the form. *)
Lemma dispatch_state e st :
  final_state (dispatch sp sessionId e st) =
  if on_screen sp sessionId e st then
    match e with
    | ClickLearnMore =>
        {| dialogOpen := true; isEditing := false; formValues := formValues st |}
    | DismissDialog => closed st
    | ClickEdit =>
        {| dialogOpen := dialogOpen st; isEditing := true;
           formValues := register_mounted (formValues st) |}
    | InputChange name value =>
        {| dialogOpen := dialogOpen st; isEditing := isEditing st;
           formValues :=
             <[name := if bool_decide (name = "total_population"%string)
                       then setValueAs value else JStr value]> (formValues st) |}
    | SelectKingdom value =>
        {| dialogOpen := dialogOpen st; isEditing := isEditing st;
           formValues := <["kingdom"%string := JStr value]> (formValues st) |}
    | SubmitForm =>
        match speciesSchema (formValues st) with
        | Zod.ValidObject data =>
            match answer (update_of sp data) with
            | Some _ => st
            | None => closed st
            end
        | Zod.InvalidObject _ => st
        end
    end
  else st.
Proof.
  unfold dispatch.
  destruct (on_screen sp sessionId e st) eqn:Hon; [|done].
  destruct e; try reflexivity.
  simpl handler.
  destruct (speciesSchema (formValues st)) as [data|issues] eqn:E.
  - rewrite (handleSubmit_valid _ _ _ E), onSubmit_run.
    by destruct (answer (update_of sp data)).
  - by rewrite (handleSubmit_invalid _ _ _ E).
Qed.

Lemma storable_payload (data : jsobject) :
  storable data → storable (update_payload data).
Proof.
  unfold storable.
  intros ((t & H1 & T1) & (v2 & H2 & T2) & (k & H3) & (v4 & H4 & T4)
          & (v5 & H5 & T5) & (v6 & H6 & T6)).
  repeat split; eexists; try split;
    try (apply update_payload_lookup; [|eassumption]; unfold editable_fields; set_solver);
    eassumption.
Qed.

End Sessions.

(* ===================================================================== *)
(** ** The registration of the mounted inputs *)
(* ===================================================================== *)

Section Registration.

Context {rt : JsRuntime} {store : RemoteStore}.



Lemma register_mounted_lookup (values : jsobject) (k : string) :
  register_mounted values !! k =
  if bool_decide (k ∈ registered_inputs)
  then Some (mounted_value k (prop values k))
  else values !! k.
Proof.
  unfold register_mounted, registered_inputs. simpl foldr.
  rewrite !lookup_insert.
  repeat (case_decide; [subst k; by rewrite bool_decide_true by (rewrite !elem_of_cons; auto 10)|]).
  rewrite bool_decide_false; [done|].
  rewrite !elem_of_cons, elem_of_nil. intuition congruence.
Qed.

Lemma editable_not_population (k : string) :
  k ∈ editable_fields → k ≠ "total_population"%string →
  k = "kingdom"%string ∨ k ∈ text_inputs.
Proof.
  unfold editable_fields, text_inputs. rewrite !elem_of_cons, !elem_of_nil.
  intros [->|[->|[->|[->|[->|[->|[]]]]]]] Hk; try done; auto 10.
Qed.

(** Registration leaves a field that holds a value as it is, unless the field
    is the population. *)
Lemma register_mounted_other (values : jsobject) (k : string) :
  defined_fields values → k ≠ "total_population"%string →
  register_mounted values !! k = values !! k.
Proof.
  intros Hdef Hk. rewrite register_mounted_lookup.
  case_bool_decide as Hin; [|done].
  assert (k ∈ editable_fields) as Hed.
  { revert Hin. unfold registered_inputs, editable_fields.
    rewrite !elem_of_cons, !elem_of_nil. intuition. }
  destruct (Hdef k Hed) as (v & Hv & Hne).
  unfold mounted_value, prop. rewrite bool_decide_false by done.
  rewrite Hv. simpl. by destruct v.
Qed.



Lemma defined_defaults (sp : Species) : defined_fields (defaultValues sp).
Proof.
  intros k. unfold editable_fields, defaultValues.
  rewrite !elem_of_cons, elem_of_nil.
  intros [->|[->|[->|[->|[->|[->|[]]]]]]]; eexists; (split; [by simplify_map_eq|]);
    try discriminate.
  - by destruct (common_name sp).
  - by destruct (total_population sp).
  - by destruct (description sp).
  - by destruct (image sp).
Qed.




(** Learn More, then Edit: for the author the form is on screen, its inputs
    registered; for anyone else the details are. *)
Lemma open_and_edit (sp : Species) (sessionId : jsstring) (st : state) :
  final_state (run sp sessionId [ClickLearnMore; ClickEdit] st)
  = {| dialogOpen := true;
       isEditing := eqb (author sp) sessionId;
       formValues := if eqb (author sp) sessionId
                     then register_mounted (formValues st) else formValues st |}.
Proof.
  rewrite !final_run_cons. simpl run.
  rewrite (dispatch_state _ _ ClickLearnMore). cbn [on_screen].
  rewrite dispatch_state. cbn [on_screen]. rewrite edit_button_shown_flags.
  cbn [dialogOpen isEditing formValues]. simpl.
  by destruct (eqb (author sp) sessionId).
Qed.


End Registration.

(* ===================================================================== *)
(** ** Further properties: the fields and the schema *)
(* ===================================================================== *)

Section FurtherSchema.

Context {rt : JsRuntime}.

(** X1. The scientific name passes exactly when it is a string that does not
    trim to nothing; what comes out is the trimmed text, so it is never empty
    and carries no whitespace at its ends (the second trim, in the transform,
    changes nothing).  Whatever is not a string, [null] included, is
    refused. *)
Theorem scientific_name_exact (input v : jsval) :
  (scientific_name_schema input = Zod.Valid v
   ↔ ∃ s, input = JStr s ∧ v = JStr (trim s) ∧ trimmed (trim s))
  ∧ scientific_name_schema JNull = Zod.Invalid [Zod.invalid_type].
Proof. split; [apply scientific_name_cases|reflexivity]. Qed.

(** X2. The kingdom passes exactly when it is one of the six names, and comes
    out as it went in; every other string, and everything that is not a
    string, is refused.  The kingdom a record brings into the form always
    passes. *)
Theorem kingdoms_exact (input v : jsval) (sp : Species) :
  (kingdoms input = Zod.Valid v
   ↔ ∃ k : Kingdom, input = JStr (kingdom_name k) ∧ v = input)
  ∧ kingdoms (prop (defaultValues sp) "kingdom")
    = Zod.Valid (JStr (kingdom_name (kingdom sp))).
Proof.
  split; [apply kingdoms_cases|].
  apply kingdoms_cases. exists (kingdom sp).
  unfold defaultValues, prop. by simplify_map_eq.
Qed.

(** X3. The image passes exactly when it is [null], or a string the URL
    parser takes; a URL comes out trimmed.  So with a parser that takes no
    blank string, the only image that comes out as [null] is one that went in
    as [null]. *)
Theorem image_exact (input v : jsval) :
  (image_schema input = Zod.Valid v
   ↔ (input = JNull ∧ v = JNull)
     ∨ ∃ s, input = JStr s ∧ URL_parses s = true ∧ v = normalised (Some s))
  ∧ ((∀ s, blank s = true → URL_parses s = false) →
     image_schema input = Zod.Valid JNull → input = JNull).
Proof.
  split; [apply image_cases|].
  intros Hparser Hnull.
  apply image_cases in Hnull as [[-> _] | (s & -> & U & Hn)]; [done|].
  simpl in Hn. destruct (blank s) eqn:B; [|discriminate].
  rewrite (Hparser s B) in U. discriminate.
Qed.

(** X4. What is typed into the population input passes exactly when the
    input is left empty, which gives [null], or when [Number] of the text is
    an integer from 1 up, which gives that number.  Text that [Number] reads
    as NaN, as a fraction or as something below 1 blocks the form. *)
Theorem typed_population_exact (text : jsstring) (v : jsval) :
  total_population_schema (setValueAs text) = Zod.Valid v
  ↔ (text = [] ∧ v = JNull)
    ∨ (text ≠ [] ∧ v = JNum (Number_ text)
       ∧ isInteger (Number_ text) = true ∧ num_leb (of_Z 1) (Number_ text) = true).
Proof. apply typed_population_cases. Qed.

(** X5. The form passes the schema exactly when each of the six fields
    passes its own schema on its own property: no field's verdict depends on
    another field, and one bad field is enough to block the form. *)
Theorem speciesSchema_fieldwise (values : jsobject) :
  (∃ data, speciesSchema values = Zod.ValidObject data) ↔ every_field_valid values.
Proof. apply valid_iff_fields. Qed.

(** X6. A form object that lacks one of the six fields is refused, with an
    [invalid_type] issue under the missing field's name: a field may be
    [null] where the schema says so, but none may be absent. *)
Theorem missing_field_refused (values : jsobject) (k : string) :
  k ∈ editable_fields →
  values !! k = None →
  ∃ issues, speciesSchema values = Zod.InvalidObject issues
            ∧ (k, Zod.invalid_type) ∈ issues.
Proof. apply missing_field. Qed.

(** X7. What the schema hands on has the six fields and no other, each in
    its normal form: the scientific name is non-empty trimmed text; the
    common name, the image and the description are [null] or non-empty
    trimmed text, never the empty string; the kingdom is one of the six
    names; the population is [null] or an integer from 1 up. *)
Theorem speciesSchema_output (values data : jsobject) :
  speciesSchema values = Zod.ValidObject data →
  storable data ∧ dom data = list_to_set editable_fields.
Proof. apply valid_data_storable. Qed.

End FurtherSchema.

(* ===================================================================== *)
(** ** Further properties: whole sessions *)
(* ===================================================================== *)

Section FurtherSessions.

Context {rt : JsRuntime} {store : RemoteStore}.

(** X8. Whatever the user does, from whatever state, every update request
    the card sends is on the [species] table, for the row of the record the
    card shows, and its payload has passed the schema: non-empty trimmed
    scientific name, one of the six kingdoms, a population that is [null] or
    an integer from 1 up, optional texts that are [null] or non-empty trimmed
    text.  Unvalidated form text never reaches the store. *)
Theorem session_updates_validated (sp : Species) (sessionId : jsstring)
    (es : list event) (st : state) :
  Forall (λ r, addressed_to sp r ∧ storable (payload r))
         (updates_of (calls (run sp sessionId es st))).
Proof.
  revert st. induction es as [|e es IH]; intros st; [apply Forall_nil_2|].
  rewrite calls_run_cons. unfold updates_of. rewrite omap_app.
  apply Forall_app. split; [|apply IH].
  pose proof (dispatch_outcome sp sessionId e st) as Ho.
  inversion Ho as [st' Hs Hc | data He Hf Hv Ha Hs Hc | data error He Hf Hv Ha Hs Hc];
    simpl; [apply Forall_nil_2| |];
    (apply Forall_cons_2; [|apply Forall_nil_2]); (split; [by repeat split|]);
    apply storable_payload; by destruct (valid_data_storable _ _ Hv).
Qed.

(** X9. In every session each update request is answered by exactly one
    toast, and each request ends either in one refresh of the view or in one
    destructive toast: there is no toast without a request, no refresh
    without a request, and no request that ends in both or in neither. *)
Theorem session_accounting (sp : Species) (sessionId : jsstring)
    (es : list event) (st : state) :
  length (toasts_of (calls (run sp sessionId es st)))
  = length (updates_of (calls (run sp sessionId es st)))
  ∧ length (updates_of (calls (run sp sessionId es st)))
    = (refreshes_of (calls (run sp sessionId es st))
       + failures_of (calls (run sp sessionId es st)))%nat.
Proof.
  revert st. induction es as [|e es IH]; intros st; [done|].
  rewrite calls_run_cons.
  unfold toasts_of, updates_of, refreshes_of, failures_of in *.
  rewrite !omap_app, !length_app.
  destruct (IH (final_state (dispatch sp sessionId e st))) as [IH1 IH2].
  rewrite IH1, IH2.
  pose proof (dispatch_outcome sp sessionId e st) as Ho.
  inversion Ho as [st' Hs Hc | data He Hf Hv Ha Hs Hc | data error He Hf Hv Ha Hs Hc];
    simpl; lia.
Qed.

(** X10. For a session that is not the record's author, no sequence of
    events from the mounted card ever shows the form, changes the working
    copy or calls a collaborator: without the Edit control there is no way
    into edit mode, and so no way to an update request. *)
Theorem stranger_cannot_edit (sp : Species) (sessionId : jsstring) (es : list event) :
  author sp ≠ sessionId →
  isEditing (final_state (run sp sessionId es (mount sp))) = false
  ∧ form_shown sp sessionId (final_state (run sp sessionId es (mount sp))) = false
  ∧ formValues (final_state (run sp sessionId es (mount sp))) = defaultValues sp
  ∧ calls (run sp sessionId es (mount sp)) = [].
Proof.
  intros Hne.
  assert (eqb (author sp) sessionId = false) as Hs
    by (by apply bool_decide_eq_false).
  assert (∀ st, isEditing st = false →
            isEditing (final_state (run sp sessionId es st)) = false
            ∧ formValues (final_state (run sp sessionId es st)) = formValues st
            ∧ calls (run sp sessionId es st) = []) as Hinv.
  { induction es as [|e es IH]; intros st Hst; [done|].
    rewrite final_run_cons, calls_run_cons.
    assert (isEditing (final_state (dispatch sp sessionId e st)) = false
            ∧ formValues (final_state (dispatch sp sessionId e st)) = formValues st
            ∧ calls (dispatch sp sessionId e st) = []) as (H1 & H2 & H3).
    { split; [|split].
      - rewrite dispatch_state. unfold on_screen.
        rewrite form_shown_flags, edit_button_shown_flags, Hs, Hst, !andb_false_r.
        by destruct e, (dialogOpen st).
      - rewrite dispatch_state. unfold on_screen.
        rewrite form_shown_flags, edit_button_shown_flags, Hs, Hst, !andb_false_r.
        by destruct e, (dialogOpen st).
      - pose proof (dispatch_outcome sp sessionId e st) as Ho.
        inversion Ho as [st' Hs' Hc | data He Hf Hv Ha Hs' Hc
                        | data error He Hf Hv Ha Hs' Hc]; [done| |];
          try rewrite <- Hs' in Hf; rewrite form_shown_flags in Hf;
          rewrite Hst, andb_false_r in Hf; discriminate. }
    destruct (IH _ H1) as (I1 & I2 & I3).
    rewrite I1, I2, I3, H2, H3. done. }
  destruct (Hinv (mount sp) eq_refl) as (H1 & H2 & H3).
  rewrite form_shown_flags, H1, andb_false_r. done.
Qed.

(** X11. Whatever was done before, Learn More leaves the dialog open in view
    mode: the details are shown, not the form, even if the dialog had been
    dismissed in edit mode, and the Edit control is there exactly for the
    author.  The working copy is not touched. *)
Theorem learn_more_opens_details (sp : Species) (sessionId : jsstring)
    (es : list event) (st : state) :
  body <$> dialog (SpeciesCard sp sessionId
             (final_state (run sp sessionId (es ++ [ClickLearnMore]) st)))
  = Some (Details (kingdom sp) (total_population sp))
  ∧ edit_button <$> dialog (SpeciesCard sp sessionId
             (final_state (run sp sessionId (es ++ [ClickLearnMore]) st)))
    = Some (eqb (author sp) sessionId)
  ∧ formValues (final_state (run sp sessionId (es ++ [ClickLearnMore]) st))
    = formValues (final_state (run sp sessionId es st)).
Proof.
  rewrite final_run_app, final_run_cons, dispatch_state. simpl run.
  unfold SpeciesCard, render_dialog. simpl. by rewrite andb_true_r.
Qed.

(** X12. Learn More, a dismissal and a submit, accepted or refused, never
    write the working copy: a session made of these leaves the form's values
    as they were.  In particular a successful submit does not replace the
    typed text by the trimmed values that were sent.  What can write the form
    is typing, selecting, and the Edit click, whose render registers the
    mounted inputs. *)
Theorem submits_and_dismissals_keep_form (sp : Species) (sessionId : jsstring)
    (es : list event) (st : state) :
  forallb (λ e, negb (writes_form e)) es = true →
  formValues (final_state (run sp sessionId es st)) = formValues st.
Proof.
  revert st. induction es as [|e es IH]; intros st Hes; [done|].
  simpl in Hes. apply andb_true_iff in Hes as [He Hes].
  rewrite final_run_cons, (IH _ Hes), dispatch_state.
  destruct (on_screen sp sessionId e st); [|done].
  destruct e; try done.
  destruct (speciesSchema (formValues st)) as [data|]; [|done].
  by destruct (answer (update_of sp data)).
Qed.

End FurtherSessions.

(* ===================================================================== *)
(** ** Further properties: the record in the form, and the view *)
(* ===================================================================== *)

Section FurtherRecord.

Context {rt : JsRuntime} {store : RemoteStore}.

Lemma defaultValues_props (sp : Species) :
  prop (defaultValues sp) "scientific_name" = JStr (scientific_name sp)
  ∧ prop (defaultValues sp) "common_name" = nullable_str (common_name sp)
  ∧ prop (defaultValues sp) "kingdom" = JStr (kingdom_name (kingdom sp))
  ∧ prop (defaultValues sp) "total_population"
    = match total_population sp with Some n => JNum (of_Z n) | None => JNull end
  ∧ prop (defaultValues sp) "image" = nullable_str (image sp)
  ∧ prop (defaultValues sp) "description" = nullable_str (description sp).
Proof. unfold defaultValues, prop. repeat split; by simplify_map_eq. Qed.

(** The form as the author first sees it: the record's values, but for the
    population, which the registration has passed through [setValueAs]. *)
Lemma first_form_props (sp : Species) :
  prop (register_mounted (defaultValues sp)) "scientific_name" = JStr (scientific_name sp)
  ∧ prop (register_mounted (defaultValues sp)) "common_name" = nullable_str (common_name sp)
  ∧ prop (register_mounted (defaultValues sp)) "kingdom" = JStr (kingdom_name (kingdom sp))
  ∧ prop (register_mounted (defaultValues sp)) "total_population"
    = JNum (of_Z (default 0 (total_population sp)))
  ∧ prop (register_mounted (defaultValues sp)) "image" = nullable_str (image sp)
  ∧ prop (register_mounted (defaultValues sp)) "description" = nullable_str (description sp).
Proof.
  destruct (defaultValues_props sp) as (P1 & P2 & P3 & P4 & P5 & P6).
  pose proof (defined_defaults sp) as Hdef.
  assert (∀ k, k ≠ "total_population"%string →
            prop (register_mounted (defaultValues sp)) k = prop (defaultValues sp) k)
    as Hother.
  { intros k Hk. unfold prop. by rewrite (register_mounted_other _ _ Hdef Hk). }
  rewrite (Hother "scientific_name"%string), (Hother "common_name"%string),
    (Hother "kingdom"%string), (Hother "image"%string),
    (Hother "description"%string) by discriminate.
  do 3 (split; [done|]). split; [|done].
  unfold prop at 1.
  rewrite register_mounted_lookup, bool_decide_true
    by (unfold registered_inputs; rewrite !elem_of_cons; auto 10).
  unfold mounted_value. rewrite bool_decide_true by done. cbn [default]. rewrite P4.
  by destruct (total_population sp).
Qed.

Lemma optional_text_of_record (o : option jsstring) :
  Zod.transform (Zod.nullable (Zod.string_ [])) blank_to_null (nullable_str o)
  = Zod.Valid (normalised o).
Proof. destruct o as [s|]; [apply optional_text_schema|done]. Qed.

Lemma population_first_shown (o : option Z) :
  (∃ v, total_population_schema (JNum (of_Z (default 0 o))) = Zod.Valid v)
  ↔ ∃ n, o = Some n ∧ 1 ≤ n.
Proof.
  split.
  - intros (v & Hv).
    apply total_population_exact in Hv as [[[=] _] | (x & [= <-] & _ & _ & Hl)].
    rewrite num_leb_of_Z in Hl. apply Z.leb_le in Hl.
    destruct o as [n|]; simpl in Hl; [by exists n|lia].
  - intros (n & -> & Hn). exists (JNum (of_Z n)). cbn [default].
    apply total_population_accepts; [apply isInteger_of_Z|].
    rewrite num_leb_of_Z. by apply Z.leb_le.
Qed.

Lemma image_of_record (o : option jsstring) :
  (∃ v, image_schema (nullable_str o) = Zod.Valid v)
  ↔ ∀ u, o = Some u → URL_parses u = true.
Proof.
  destruct o as [u|]; simpl.
  - split.
    + intros (v & Hv) ? [= <-].
      by apply image_cases in Hv as [[[=] _] | (s & [= <-] & U & _)].
    + intros Hu. eexists. apply image_url. by apply Hu.
  - split; [done|]. intros _. by exists JNull.
Qed.

Lemma first_form_valid (sp : Species) :
  every_field_valid (register_mounted (defaultValues sp)) ↔ submittable sp.
Proof.
  destruct (first_form_props sp) as (P1 & P2 & P3 & P4 & P5 & P6).
  unfold every_field_valid, submittable, speciesSchema_shape.
  rewrite !Forall_cons. simpl. rewrite P1, P2, P3, P4, P5, P6.
  rewrite population_first_shown, image_of_record.
  split.
  - intros ((v & Hs) & _ & _ & Hp & Hi & _).
    split; [|done].
    by apply scientific_name_cases in Hs as (s & [= <-] & _ & Hne & _).
  - intros (Hs & Hp & Hi).
    split; [eexists; by apply scientific_name_kept|].
    split; [eexists; apply optional_text_of_record|].
    split; [eexists; apply kingdoms_cases; by eexists|].
    split; [done|]. split; [done|].
    split; [eexists; apply optional_text_of_record|apply Forall_nil_2].
Qed.

Lemma first_form (sp : Species) (sessionId : jsstring) :
  author sp = sessionId →
  formValues (final_state (run sp sessionId [ClickLearnMore; ClickEdit] (mount sp)))
  = register_mounted (defaultValues sp).
Proof.
  intros Ha. rewrite open_and_edit. cbn [formValues mount].
  unfold eqb. by rewrite bool_decide_true.
Qed.

(** X13. The form as the author first sees it, Learn More then Edit and
    nothing typed, passes the schema exactly when the record has a scientific
    name that is not blank, a population, of at least 1, and an image the URL
    parser takes if it has one.  A record without population does not pass:
    the registration of the empty population input has stored 0.  When that
    first form passes, what is sent is the record's own values, its texts
    trimmed and its blank texts turned into [null]. *)
Theorem untouched_form (sp : Species) (sessionId : jsstring) :
  author sp = sessionId →
  ((∃ data,
      speciesSchema (formValues (final_state
        (run sp sessionId [ClickLearnMore; ClickEdit] (mount sp))))
      = Zod.ValidObject data)
   ↔ submittable sp)
  ∧ (∀ data,
       speciesSchema (formValues (final_state
         (run sp sessionId [ClickLearnMore; ClickEdit] (mount sp))))
       = Zod.ValidObject data →
       payload (update_of sp data) = normalised_record sp).
Proof.
  intros Ha. rewrite (first_form sp sessionId Ha).
  split; [by rewrite valid_iff_fields, first_form_valid|].
  intros data Hv.
  assert (submittable sp) as (Hs & (n & Hn & Hp) & Hi).
  { apply first_form_valid, valid_iff_fields. by exists data. }
  destruct (first_form_props sp) as (P1 & P2 & P3 & P4 & P5 & P6).
  rewrite Hn in P4. simpl in P4.
  assert (∀ k sch v, (k, sch) ∈ speciesSchema_shape →
            sch (prop (register_mounted (defaultValues sp)) k) = Zod.Valid v →
            prop data k = v) as Hfield.
  { intros k sch v Hin Hsch.
    destruct (field_of_valid _ _ k sch Hv Hin) as (v' & Hv1 & Hv2).
    unfold prop at 1. rewrite Hv2. simpl. congruence. }
  unfold update_of, normalised_record. cbn [payload]. unfold update_payload.
  rewrite (Hfield "scientific_name"%string scientific_name_schema
             (JStr (trim (scientific_name sp))));
    [|apply shape_entries; tauto|rewrite P1; by apply scientific_name_kept].
  rewrite (Hfield "common_name"%string common_name_schema (normalised (common_name sp)));
    [|apply shape_entries; tauto|rewrite P2; apply optional_text_of_record].
  rewrite (Hfield "kingdom"%string kingdoms (JStr (kingdom_name (kingdom sp))));
    [|apply shape_entries; tauto|rewrite P3; apply kingdoms_cases; by eexists].
  rewrite (Hfield "total_population"%string total_population_schema (JNum (of_Z n)));
    [|apply shape_entries; tauto|].
  2:{ rewrite P4. apply total_population_accepts; [apply isInteger_of_Z|].
      rewrite num_leb_of_Z. by apply Z.leb_le. }
  rewrite (Hfield "description"%string description_schema (normalised (description sp)));
    [|apply shape_entries; tauto|rewrite P6; apply optional_text_of_record].
  rewrite (Hfield "image"%string image_schema (normalised (image sp)));
    [by rewrite Hn|apply shape_entries; tauto|].
  rewrite P5. destruct (image sp) as [u|]; [|done].
  simpl. apply image_url. by apply Hi.
Qed.

End FurtherRecord.

(* ===================================================================== *)
(** ** Further properties: what the form holds, what is typed, what is shown *)
(* ===================================================================== *)

Section FurtherForm.

Context {rt : JsRuntime} {store : RemoteStore}.

Lemma submit_calls (sp : Species) (sessionId : jsstring) (st : state) :
  calls (dispatch sp sessionId SubmitForm st) =
  if form_shown sp sessionId st then
    match speciesSchema (formValues st) with
    | Zod.ValidObject data =>
        match answer (update_of sp data) with
        | Some error => [Update (update_of sp data); Notify (failure_toast error)]
        | None => [Update (update_of sp data); Refresh; Notify success_toast]
        end
    | Zod.InvalidObject _ => []
    end
  else [].
Proof.
  unfold dispatch. simpl on_screen.
  destruct (form_shown sp sessionId st); [|done]. simpl handler.
  destruct (speciesSchema (formValues st)) as [data|issues] eqn:E.
  - rewrite (handleSubmit_valid _ _ _ E), onSubmit_run.
    by destruct (answer (update_of sp data)).
  - by rewrite (handleSubmit_invalid _ _ _ E).
Qed.

Lemma complete_step (sp : Species) (sessionId : jsstring) (e : event) (st : state) :
  dom (formValues st) = list_to_set editable_fields →
  (∃ k, formValues st !! "kingdom"%string = Some (JStr (kingdom_name k))) →
  dom (formValues (final_state (dispatch sp sessionId e st))) = list_to_set editable_fields
  ∧ ∃ k, formValues (final_state (dispatch sp sessionId e st)) !! "kingdom"%string
         = Some (JStr (kingdom_name k)).
Proof.
  intros Hdom Hk. rewrite dispatch_state.
  destruct (on_screen sp sessionId e st) eqn:Hon; [|done].
  destruct e as [| | |name value|value|]; try done.
  - cbn [formValues]. split.
    + unfold register_mounted, registered_inputs. simpl foldr.
      rewrite !dom_insert_L, Hdom. unfold editable_fields.
      apply set_eq. intros x. rewrite !elem_of_union, !elem_of_singleton.
      simpl. rewrite !elem_of_union, !elem_of_singleton. intuition.
    + rewrite register_mounted_lookup, bool_decide_false; [done|].
      unfold registered_inputs. rewrite !elem_of_cons, elem_of_nil.
      intuition discriminate.
  - simpl in Hon. apply andb_true_iff in Hon as [_ Hn].
    apply bool_decide_eq_true in Hn. cbn [formValues].
    unfold registered_inputs in Hn. rewrite !elem_of_cons, elem_of_nil in Hn.
    split.
    + rewrite dom_insert_L, Hdom. unfold editable_fields.
      destruct Hn as [->|[->|[->|[->|[->|[]]]]]]; set_solver.
    + rewrite lookup_insert_ne; [done|].
      destruct Hn as [->|[->|[->|[->|[->|[]]]]]]; discriminate.
  - simpl in Hon. apply andb_true_iff in Hon as [_ Hv].
    apply bool_decide_eq_true in Hv. cbn [formValues].
    split.
    + rewrite dom_insert_L, Hdom. unfold editable_fields. set_solver.
    + rewrite lookup_insert_eq. unfold kingdoms_options in Hv.
      apply list_elem_of_fmap in Hv as (k & -> & _). by exists k.
  - destruct (speciesSchema (formValues st)) as [data|]; [|done].
    by destruct (answer (update_of sp data)).
Qed.

(** X14. From the mounted card on, whatever the user does, the working copy
    holds the six fields and no other, and its kingdom is one of the six
    names: inputs write only registered fields, the select writes only its
    own options.  So a session never meets a missing field, and the kingdom
    never blocks a submit. *)
Theorem form_always_complete (sp : Species) (sessionId : jsstring) (es : list event) :
  dom (formValues (final_state (run sp sessionId es (mount sp))))
  = list_to_set editable_fields
  ∧ ∃ k, kingdoms (prop (formValues (final_state (run sp sessionId es (mount sp))))
                     "kingdom")
         = Zod.Valid (JStr (kingdom_name k)).
Proof.
  assert (∀ st,
            dom (formValues st) = list_to_set editable_fields →
            (∃ k, formValues st !! "kingdom"%string = Some (JStr (kingdom_name k))) →
            dom (formValues (final_state (run sp sessionId es st)))
            = list_to_set editable_fields
            ∧ ∃ k, formValues (final_state (run sp sessionId es st)) !! "kingdom"%string
                   = Some (JStr (kingdom_name k))) as Hinv.
  { induction es as [|e es IH]; intros st Hd Hk; [done|].
    rewrite final_run_cons.
    destruct (complete_step sp sessionId e st Hd Hk) as [Hd' Hk']. by apply IH. }
  destruct (Hinv (mount sp)) as (Hd & k & Hk).
  - unfold mount, defaultValues. cbn [formValues].
    rewrite dom_list_to_map_L. unfold editable_fields. simpl. set_solver.
  - exists (kingdom sp). unfold mount, defaultValues. cbn [formValues].
    by simplify_map_eq.
  - split; [exact Hd|]. exists k. unfold prop. rewrite Hk.
    apply kingdoms_cases. by exists k.
Qed.

(** X15. With the form on screen, text typed into one of the text inputs and
    then submitted reaches the store normalised: if an update request goes
    out at all, its payload carries for that field the trimmed text, or
    [null] where the text is blank; the untrimmed text is never sent. *)
Theorem typed_text_is_sent_trimmed (sp : Species) (sessionId : jsstring)
    (name : string) (s : jsstring) (st : state) :
  form_shown sp sessionId st = true →
  name ∈ text_inputs →
  Forall (λ r, payload r !! name = Some (normalised (Some s)))
         (updates_of (calls (run sp sessionId [InputChange name s; SubmitForm] st))).
Proof.
  intros Hshown Hname.
  unfold text_inputs in Hname. rewrite !elem_of_cons, elem_of_nil in Hname.
  assert (bool_decide (name = "total_population"%string) = false) as Hnp.
  { apply bool_decide_eq_false.
    destruct Hname as [->|[->|[->|[->|[]]]]]; discriminate. }
  assert (on_screen sp sessionId (InputChange name s) st = true) as Hon.
  { simpl. rewrite Hshown. simpl. apply bool_decide_eq_true. unfold registered_inputs.
    rewrite !elem_of_cons. destruct Hname as [->|[->|[->|[->|[]]]]]; auto 10. }
  rewrite !calls_run_cons. simpl (calls (run _ _ [] _)). rewrite app_nil_r.
  assert (calls (dispatch sp sessionId (InputChange name s) st) = []) as ->.
  { unfold dispatch. by rewrite Hon. }
  rewrite app_nil_l.
  pose proof (dispatch_state sp sessionId (InputChange name s) st) as Hst.
  rewrite Hon, Hnp in Hst.
  set (st1 := final_state (dispatch sp sessionId (InputChange name s) st)) in *.
  assert (prop (formValues st1) name = JStr s) as Hprop.
  { rewrite Hst. cbn [formValues]. unfold prop. by rewrite lookup_insert_eq. }
  rewrite submit_calls.
  destruct (form_shown sp sessionId st1); [|apply Forall_nil_2].
  destruct (speciesSchema (formValues st1)) as [data|issues] eqn:Hv;
    [|apply Forall_nil_2].
  assert (payload (update_of sp data) !! name = Some (normalised (Some s))) as Hsent.
  { assert (∃ sch, (name, sch) ∈ speciesSchema_shape
                   ∧ ∀ v, sch (JStr s) = Zod.Valid v → v = normalised (Some s))
      as (sch & Hin & Hsch).
    { destruct Hname as [->|[->|[->|[->|[]]]]].
      - exists scientific_name_schema. split; [apply shape_entries; tauto|].
        intros v Hs. apply scientific_name_cases in Hs as (s' & [= <-] & -> & Hne & _).
        simpl. destruct (blank s) eqn:B; [|done]. by apply trim_blank in B.
      - exists common_name_schema. split; [apply shape_entries; tauto|].
        intros v Hs. by apply optional_text_exact in Hs as [[[=] _] | (s' & [= <-] & ->)].
      - exists image_schema. split; [apply shape_entries; tauto|].
        intros v Hs. by apply image_cases in Hs as [[[=] _] | (s' & [= <-] & _ & ->)].
      - exists description_schema. split; [apply shape_entries; tauto|].
        intros v Hs. by apply optional_text_exact in Hs as [[[=] _] | (s' & [= <-] & ->)]. }
    destruct (field_of_valid _ _ name sch Hv Hin) as (v & Hv1 & Hv2).
    rewrite Hprop in Hv1. apply Hsch in Hv1 as ->.
    unfold update_of. cbn [payload]. apply update_payload_lookup; [|done].
    unfold editable_fields. rewrite !elem_of_cons.
    destruct Hname as [->|[->|[->|[->|[]]]]]; auto 10. }
  destruct (answer (update_of sp data)); simpl;
    (apply Forall_cons_2; [exact Hsent|apply Forall_nil_2]).
Qed.

(** X16. The kingdom select shows "Animalia" when the form holds no kingdom
    ([null] or nothing), but that is display only: the schema does not take
    the fallback, and a form without a kingdom is refused with an
    [invalid_type] issue on [kingdom]. *)
Theorem kingdom_fallback_is_display_only (values : jsobject) :
  prop values "kingdom" = JNull ∨ prop values "kingdom" = JUndefined →
  select_shown values = JStr (js "Animalia")
  ∧ ∃ issues, speciesSchema values = Zod.InvalidObject issues
              ∧ ("kingdom"%string, Zod.invalid_type) ∈ issues.
Proof.
  intros Hk. split.
  - unfold select_shown. by destruct Hk as [-> | ->].
  - apply (object_invalid _ _ _ kingdoms _ []); [apply shape_entries; tauto|].
    by destruct Hk as [-> | ->].
Qed.

End FurtherForm.

Section FurtherView.

(** X17. The summary on the card is never longer than 153 code units: it is
    empty, or at most 150 code units of the description followed by the
    three dots. *)
Theorem summary_bounded (sp : Species) (sessionId : jsstring) (st : state) :
  (length (summary (SpeciesCard sp sessionId st)) ≤ 153)%nat
  ∧ (summary (SpeciesCard sp sessionId st) = []
     ∨ ∃ t, summary (SpeciesCard sp sessionId st) = t ++ js "..."
            ∧ (length t ≤ 150)%nat).
Proof.
  unfold SpeciesCard. cbn [summary]. unfold summary_text.
  destruct (description sp) as [d|]; [|split; [simpl; lia|by left]].
  destruct (truthy d); [|split; [simpl; lia|by left]].
  assert (length (trim (slice0 150 d)) ≤ 150)%nat as Hlen.
  { etrans; [apply length_trim|]. unfold slice0. rewrite length_take. lia. }
  split.
  - rewrite length_app. simpl (length (js "...")). lia.
  - right. by eexists.
Qed.


(** X19. The header of the dialog in view mode, at its edges: a record
    without a common name gets the title "null (<scientific name>)", the
    [null] being interpolated as text; a record whose description is [null]
    or empty gets "No description available.". *)
Theorem view_header_edges (sp : Species) (sessionId : jsstring) (st : state)
    (d : dialog_view) :
  dialog (SpeciesCard sp sessionId st) = Some d →
  isEditing st = false →
  (common_name sp = None →
   dialog_title d = js "null (" ++ scientific_name sp ++ js ")")
  ∧ (description sp = None ∨ description sp = Some [] →
     dialog_description d = js "No description available.").
Proof.
  unfold SpeciesCard. cbn [dialog].
  destruct (dialogOpen st); [|discriminate]. intros [= <-] He.
  unfold render_dialog. cbn [dialog_title dialog_description]. rewrite He.
  split.
  - intros ->. reflexivity.
  - by intros [-> | ->].
Qed.

End FurtherView.

(* ===================================================================== *)
(** ** The further properties at concrete inputs *)
(* ===================================================================== *)

Lemma sample_parser_refuses_blanks (s : jsstring) :
  blank s = true → URL_parses (JsRuntime := Sample.runtime) s = false.
Proof.
  destruct s as [|c r]; [done|]. simpl. intros B.
  apply andb_true_iff in B as [Hc _].
  apply bool_decide_eq_false. intros [= -> _]. discriminate.
Qed.

(** With the sample parser, an image field left empty does not come out as
    [null]. *)
Lemma image_exact_witness :
  image_schema (rt := Sample.runtime) (JStr []) ≠ Zod.Valid JNull.
Proof.
  intros E.
  pose proof (proj2 (image_exact (rt := Sample.runtime) (JStr []) JNull)
                sample_parser_refuses_blanks E) as Hnull.
  discriminate Hnull.
Defined.

(** The form of the otter without its [image] property is refused. *)
Lemma missing_field_refused_witness :
  ∃ issues,
    speciesSchema (rt := Sample.runtime) (delete "image"%string (defaultValues Sample.otter))
    = Zod.InvalidObject issues
    ∧ ("image"%string, Zod.invalid_type) ∈ issues.
Proof.
  apply (missing_field_refused (rt := Sample.runtime)
           (delete "image"%string (defaultValues Sample.otter)) "image"%string).
  - apply (bool_decide_unpack _). vm_compute. exact I.
  - vm_compute. reflexivity.
Defined.

(** The otter's own values pass the schema and come out in normal form. *)
Lemma speciesSchema_output_witness :
  ∃ data,
    speciesSchema (rt := Sample.runtime) (defaultValues Sample.otter) = Zod.ValidObject data
    ∧ storable data.
Proof.
  destruct (speciesSchema (rt := Sample.runtime) (defaultValues Sample.otter))
    as [data|issues] eqn:E.
  - exists data. split; [reflexivity|].
    apply (speciesSchema_output (rt := Sample.runtime) _ data E).
  - vm_compute in E. discriminate E.
Defined.

(** Another user clicks through the otter's card, and nothing is sent. *)
Lemma stranger_cannot_edit_witness :
  calls (run (rt := Sample.runtime) (store := Sample.accepting) Sample.otter Sample.stranger
           [ClickLearnMore; ClickEdit; InputChange "scientific_name" (js "x"); SubmitForm]
           (mount Sample.otter)) = [].
Proof.
  apply (stranger_cannot_edit (rt := Sample.runtime) (store := Sample.accepting)
           Sample.otter Sample.stranger).
  intros E. vm_compute in E. discriminate E.
Defined.

(** A submit the store accepts, a dismissal and Learn More leave the typed
    text in the form, spaces included. *)
Lemma submits_and_dismissals_keep_form_witness :
  formValues (final_state
    (run (rt := Sample.runtime) (store := Sample.accepting) Sample.otter Sample.user
       [SubmitForm; DismissDialog; ClickLearnMore]
       (Sample.editing "common_name" (js " Otter "))))
  = formValues (Sample.editing "common_name" (js " Otter ")).
Proof.
  apply (submits_and_dismissals_keep_form (rt := Sample.runtime)
           (store := Sample.accepting) Sample.otter Sample.user
           [SubmitForm; DismissDialog; ClickLearnMore]
           (Sample.editing "common_name" (js " Otter "))).
  reflexivity.
Defined.

Lemma otter_submittable : submittable (rt := Sample.runtime) Sample.otter.
Proof.
  split; [|split].
  - intros E. vm_compute in E. discriminate E.
  - exists 57000. split; [reflexivity|lia].
  - intros u [=].
Qed.

(** The otter's form as its author first sees it passes, and sends the otter's
    own values. *)
Lemma untouched_form_witness :
  ∃ data,
    speciesSchema (rt := Sample.runtime)
      (formValues (final_state
         (run (rt := Sample.runtime) (store := Sample.accepting) Sample.otter Sample.user
            [ClickLearnMore; ClickEdit] (mount Sample.otter))))
    = Zod.ValidObject data
    ∧ payload (update_of Sample.otter data) = normalised_record Sample.otter.
Proof.
  destruct (untouched_form (rt := Sample.runtime) (store := Sample.accepting)
              Sample.otter Sample.user eq_refl) as [Hiff Hsent].
  destruct (proj2 Hiff otter_submittable) as [data Hv].
  exists data. split; [exact Hv|exact (Hsent data Hv)].
Defined.

(** A common name typed with spaces around it is sent without them. *)
Lemma typed_text_is_sent_trimmed_witness :
  Forall (λ r, payload r !! "common_name"%string = Some (JStr (js "Otter")))
    (updates_of (calls
       (run (rt := Sample.runtime) (store := Sample.accepting) Sample.otter Sample.user
          [InputChange "common_name" (js " Otter "); SubmitForm]
          (Sample.editing "common_name" (js "x"))))).
Proof.
  apply (typed_text_is_sent_trimmed (rt := Sample.runtime) (store := Sample.accepting)
           Sample.otter Sample.user "common_name"%string (js " Otter ")
           (Sample.editing "common_name" (js "x"))).
  - reflexivity.
  - apply (bool_decide_unpack _). vm_compute. exact I.
Defined.

(** A form whose kingdom is [null] shows "Animalia" and is refused. *)
Lemma kingdom_fallback_is_display_only_witness :
  select_shown (<["kingdom"%string := JNull]> (defaultValues Sample.otter))
  = JStr (js "Animalia")
  ∧ ∃ issues,
      speciesSchema (rt := Sample.runtime)
        (<["kingdom"%string := JNull]> (defaultValues Sample.otter))
      = Zod.InvalidObject issues
      ∧ ("kingdom"%string, Zod.invalid_type) ∈ issues.
Proof.
  apply (kingdom_fallback_is_display_only (rt := Sample.runtime)
           (<["kingdom"%string := JNull]> (defaultValues Sample.otter))).
  left. vm_compute. reflexivity.
Defined.


(** The record without common name and with an empty description. *)
Lemma view_header_edges_witness :
  dialog_title (render_dialog Sample.undescribed Sample.user Sample.viewing)
  = js "null (Lutra lutra)"
  ∧ dialog_description (render_dialog Sample.undescribed Sample.user Sample.viewing)
    = js "No description available.".
Proof.
  destruct (view_header_edges Sample.undescribed Sample.user Sample.viewing
              (render_dialog Sample.undescribed Sample.user Sample.viewing)
              eq_refl eq_refl) as [Ht Hd].
  split; [apply Ht; reflexivity|apply Hd; right; reflexivity].
Defined.

(* ===================================================================== *)
(** ** The dialog's life cycle and the untouched population input *)
(* ===================================================================== *)

Section LifeCycle.

Context {rt : JsRuntime} {store : RemoteStore}.

Lemma quiet_event (sp : Species) (sessionId : jsstring) (e : event) (st : state) :
  e ≠ SubmitForm → calls (dispatch sp sessionId e st) = [].
Proof.
  intros He. pose proof (dispatch_outcome sp sessionId e st) as Ho.
  inversion Ho; done.
Qed.


(** C7, at the input where the code departs from it.  For a record without
    population, the author opens the dialog, presses Edit and leaves the
    population input empty.  The registration of the mounted input has passed
    the stored [null] through [setValueAs], which tests for the empty string
    only: the form holds [Number(null)], that is 0, not [null].  The schema
    refuses it as too small, and a submit sends nothing. *)
Theorem untouched_population_refused (sp : Species) (sessionId : jsstring) :
  author sp = sessionId →
  total_population sp = None →
  prop (formValues (final_state
          (run sp sessionId [ClickLearnMore; ClickEdit] (mount sp)))) "total_population"
  = JNum (of_Z 0)
  ∧ total_population_schema (JNum (of_Z 0)) = Zod.Invalid [Zod.too_small; Zod.too_small]
  ∧ (∃ issues,
       speciesSchema (formValues (final_state
         (run sp sessionId [ClickLearnMore; ClickEdit] (mount sp))))
       = Zod.InvalidObject issues
       ∧ ("total_population"%string, Zod.too_small) ∈ issues)
  ∧ calls (run sp sessionId [ClickLearnMore; ClickEdit; SubmitForm] (mount sp)) = [].
Proof.
  intros Ha Hnone.
  assert (prop (formValues (final_state
            (run sp sessionId [ClickLearnMore; ClickEdit] (mount sp)))) "total_population"
          = JNum (of_Z 0)) as Hzero.
  { rewrite open_and_edit. cbn [formValues mount]. unfold eqb.
    rewrite bool_decide_true by done. unfold prop at 1.
    rewrite register_mounted_lookup, bool_decide_true
      by (unfold registered_inputs; rewrite !elem_of_cons; auto 10).
    unfold mounted_value. rewrite bool_decide_true by done. cbn [default].
    unfold defaultValues, prop. rewrite Hnone. by simplify_map_eq. }
  assert (∃ issues,
       speciesSchema (formValues (final_state
         (run sp sessionId [ClickLearnMore; ClickEdit] (mount sp))))
       = Zod.InvalidObject issues
       ∧ ("total_population"%string, Zod.too_small) ∈ issues) as Hinv.
  { apply (object_invalid _ _ _ total_population_schema _ [Zod.too_small]).
    - unfold speciesSchema_shape. rewrite !elem_of_cons. auto 10.
    - by rewrite Hzero. }
  split; [exact Hzero|]. split; [reflexivity|]. split; [exact Hinv|].
  rewrite !calls_run_cons.
  rewrite !quiet_event by discriminate. simpl (calls (run _ _ [] _)).
  rewrite app_nil_l, app_nil_r, submit_calls.
  assert (final_state (dispatch sp sessionId ClickEdit
            (final_state (dispatch sp sessionId ClickLearnMore (mount sp))))
          = final_state (run sp sessionId [ClickLearnMore; ClickEdit] (mount sp))) as ->.
  { by rewrite !final_run_cons. }
  destruct Hinv as (issues & -> & _).
  by destruct (form_shown sp sessionId _).
Qed.

End LifeCycle.


(** The record without population: its author opens the form, types nothing,
    and the submit sends nothing. *)
Lemma untouched_population_refused_witness :
  prop (formValues (final_state
          (run (rt := Sample.runtime) (store := Sample.accepting)
             Sample.undescribed Sample.user
             [ClickLearnMore; ClickEdit] (mount Sample.undescribed)))) "total_population"
  = JNum (of_Z 0)
  ∧ calls (run (rt := Sample.runtime) (store := Sample.accepting)
             Sample.undescribed Sample.user
             [ClickLearnMore; ClickEdit; SubmitForm] (mount Sample.undescribed)) = [].
Proof.
  pose proof (untouched_population_refused (rt := Sample.runtime)
                (store := Sample.accepting) Sample.undescribed Sample.user
                eq_refl eq_refl) as Hw.
  split; apply Hw.
Defined.
